(** * tap-personio: the Personio authenticator

    A shallow embedding of [src/tap_personio/auth.py] and the properties of
    its token refresh.  The class [PersonioAuthenticator] overrides two
    members of singer_sdk's [OAuthAuthenticator]: the property
    [oauth_request_body] and the method [update_access_token]; the class
    method [create_for_stream] builds the instance.

    Python objects are mutable and methods raise: a method is a function from
    the receiver and the outside world to an outcome (a value or a raised
    exception) together with the receiver and the world as the call left
    them.  A raised exception rolls nothing back. *)

From stdpp Require Import base strings gmap list pretty.

Open Scope Z_scope.

(** ** Python values *)

(** What [json.loads] builds, which is also what the attributes of the
    authenticator hold: [None], booleans, integers, floats (kept as their
    IEEE-754 binary64 bit pattern), strings, lists and dicts.  A dict is the
    list of its items in insertion order, every key once. *)
#[warnings="-register-all"]
Inductive pyval : Type :=
  | PNone
  | PBool (b : bool)
  | PInt (n : Z)
  | PFloat (bits : Z)
  | PStr (s : string)
  | PList (xs : list pyval)
  | PDict (items : list (string * pyval)).

(** The name of a value's class, as error messages spell it. *)
Definition py_type (v : pyval) : string :=
  match v with
  | PNone => "NoneType"
  | PBool _ => "bool"
  | PInt _ => "int"
  | PFloat _ => "float"
  | PStr _ => "str"
  | PList _ => "list"
  | PDict _ => "dict"
  end.

(** ** Exceptions *)

Inductive exn : Type :=
  | KeyError (key : string)
  | TypeError (cls : string)
  | AttributeError (cls attr : string)
  | JSONDecodeError
  | HTTPError (msg : string) (status : Z)
  | RequestException (kind : string)
  | ValueError (msg : string)
  | RuntimeError (msg : string) (cause : exn).

Inductive outcome (A : Type) : Type :=
  | Ok (a : A)
  | Raise (e : exn).
Arguments Ok {A} a.
Arguments Raise {A} e.

Definition raised {A} (o : outcome A) : Prop := ∃ e, o = Raise e.

(** The one error kind the refresh documents ("Raises: RuntimeError: When
    OAuth login fails"). *)
Definition is_RuntimeError (e : exn) : bool :=
  match e with RuntimeError _ _ => true | _ => false end.

(** ** Dict and subscript operations *)

Fixpoint dict_lookup (k : string) (items : list (string * pyval)) : option pyval :=
  match items with
  | [] => None
  | (k', v) :: rest => if decide (k = k') then Some v else dict_lookup k rest
  end.

(** [v[k]] for a string [k]: a dict looks the key up and raises [KeyError]
    when it is missing; no other JSON value can be subscripted by a string
    (lists and strings want integers, the rest is not subscriptable). *)
Definition py_getitem (v : pyval) (k : string) : outcome pyval :=
  match v with
  | PDict items =>
      match dict_lookup k items with
      | Some x => Ok x
      | None => Raise (KeyError k)
      end
  | _ => Raise (TypeError (py_type v))
  end.

(** [v.get(k, d)]: only a dict has the method. *)
Definition py_get (v : pyval) (k : string) (d : pyval) : outcome pyval :=
  match v with
  | PDict items => Ok (default d (dict_lookup k items))
  | _ => Raise (AttributeError (py_type v) "get")
  end.

(** ** HTTP: the part of [requests] the refresh uses *)

Record request : Type := Request {
  rq_method : string;
  rq_url : string;
  rq_data : list (string * pyval);
  rq_timeout : Z;
}.

(** A [requests.Response]: [body] is the decoded JSON content, [None] when
    the content is not JSON. *)
Record response : Type := Response {
  status_code : Z;
  reason : string;
  url : string;
  body : option pyval;
}.

(** [Response.json()]. *)
Definition json (r : response) : outcome pyval :=
  match body r with
  | Some v => Ok v
  | None => Raise JSONDecodeError
  end.

(** [Response.raise_for_status()].  It belongs to [requests], not to the
    repository: it raises [HTTPError] for a 4xx status (a client error) and
    for a 5xx status (a server error), with the message built here, and
    returns for every other status. *)
Definition http_error_msg (r : response) : option string :=
  if bool_decide (400 ≤ status_code r < 500) then
    Some (pretty (status_code r) +:+ " Client Error: " +:+ reason r
            +:+ " for url: " +:+ url r)
  else if bool_decide (500 ≤ status_code r < 600) then
    Some (pretty (status_code r) +:+ " Server Error: " +:+ reason r
            +:+ " for url: " +:+ url r)
  else None.

Definition raise_for_status (r : response) : outcome unit :=
  match http_error_msg r with
  | Some msg => Raise (HTTPError msg (status_code r))
  | None => Ok ()
  end.

(** ** The authenticator object and the world around it *)

Record PersonioAuthenticator : Type := Authenticator {
  config : gmap string pyval;
  auth_endpoint : string;
  oauth_scopes : string;
  default_expiration : pyval;
  access_token : pyval;
  expires_in : pyval;
  last_refreshed : option Z;
}.

Definition set_access_token (v : pyval) (o : PersonioAuthenticator) :=
  {| config := config o; auth_endpoint := auth_endpoint o;
     oauth_scopes := oauth_scopes o; default_expiration := default_expiration o;
     access_token := v; expires_in := expires_in o;
     last_refreshed := last_refreshed o |}.

Definition set_expires_in (v : pyval) (o : PersonioAuthenticator) :=
  {| config := config o; auth_endpoint := auth_endpoint o;
     oauth_scopes := oauth_scopes o; default_expiration := default_expiration o;
     access_token := access_token o; expires_in := v;
     last_refreshed := last_refreshed o |}.

Definition set_last_refreshed (t : Z) (o : PersonioAuthenticator) :=
  {| config := config o; auth_endpoint := auth_endpoint o;
     oauth_scopes := oauth_scopes o; default_expiration := default_expiration o;
     access_token := access_token o; expires_in := expires_in o;
     last_refreshed := Some t |}.

Inductive log_level : Type := DEBUG | INFO.

(** What a method can observe or change outside its receiver: the UTC clock
    (microseconds since the epoch), the requests handed to [requests.post] so
    far, and the records handed to the logger so far. *)
Record world : Type := World {
  clock : Z;
  sent : list request;
  logged : list (log_level * string);
}.

(** ** Methods as state-and-exception computations *)

Definition M (A : Type) : Type :=
  PersonioAuthenticator → world → outcome A * PersonioAuthenticator * world.

Definition M_ret {A} (a : A) : M A := λ self w, (Ok a, self, w).

Definition M_bind {A B} (f : A → M B) (m : M A) : M B := λ self w,
  match m self w with
  | (Ok a, self', w') => f a self' w'
  | (Raise e, self', w') => (Raise e, self', w')
  end.

#[global] Instance M_mret : MRet M := @M_ret.
#[global] Instance M_mbind : MBind M := @M_bind.

Definition raise {A} (e : exn) : M A := λ self w, (Raise e, self, w).

Definition lift {A} (o : outcome A) : M A := λ self w, (o, self, w).

(** [try: m  except HTTPError as ex: h ex]: any other exception passes. *)
Definition try_except_HTTPError {A} (m : M A) (h : exn → M A) : M A := λ self w,
  match m self w with
  | (Raise (HTTPError msg st), self', w') => h (HTTPError msg st) self' w'
  | r => r
  end.

Definition get_attr {A} (f : PersonioAuthenticator → A) : M A :=
  λ self w, (Ok (f self), self, w).

Definition set_attr (f : PersonioAuthenticator → PersonioAuthenticator) : M unit :=
  λ self w, (Ok (), f self, w).

Definition after_post (w : world) (rq : request) (elapsed : N) : world :=
  {| clock := clock w + Z.of_N elapsed; sent := sent w ++ [rq];
     logged := logged w |}.

Definition after_log (w : world) (records : list (log_level * string)) : world :=
  {| clock := clock w; sent := sent w; logged := logged w ++ records |}.

(** [utc_now()]. *)
Definition utc_now : M Z := λ self w, (Ok (clock w), self, w).

(** [self.logger.info(msg)] and [self.logger.debug(msg)]. *)
Definition logger (lvl : log_level) (msg : string) : M unit := λ self w,
  (Ok (), self, after_log w [(lvl, msg)]).

Definition login_ok_msg : string :=
  "OAuth authorization attempt was successful.".

Definition never_expires_msg : string :=
  "No expires_in receied in OAuth response and no "
    +:+ "default_expiration set. Token will be treated as if it never "
    +:+ "expires.".

(** ** The refresh *)

Section Refresh.

(** [str] of a decoded JSON value, which is what an f-string puts for it.
    Python's spelling of floats and of string escapes is left open. *)
Variable py_str : pyval → string.

(** The network and the server behind it: given the world at the moment of
    the call and the request, how long [requests.post] blocks (in
    microseconds) and what it returns or raises. *)
Variable net : world → request → N * outcome response.

(** [requests.post(url, data=data, timeout=timeout)]. *)
Definition requests_post (url : string) (data : list (string * pyval))
    (timeout : Z) : M response := λ self w,
  let rq := Request "POST" url data timeout in
  let '(elapsed, out) := net w rq in
  (out, self, after_post w rq elapsed).

(** [self.config[key]]. *)
Definition config_item (key : string) : M pyval := λ self w,
  match config self !! key with
  | Some v => (Ok v, self, w)
  | None => (Raise (KeyError key), self, w)
  end.

(** [self.auth_endpoint].  The attribute is a property inherited from
    singer_sdk's [OAuthAuthenticator], not in auth.py: it hands out the
    endpoint the constructor stored and raises [ValueError] when none is set
    (the stored value is empty; a stored [None] is the empty string here). *)
Definition endpoint_not_set_msg : string := "Authorization endpoint not set.".

Definition auth_endpoint_property : M string := λ self w,
  if decide (auth_endpoint self = "") then
    (Raise (ValueError endpoint_not_set_msg), self, w)
  else (Ok (auth_endpoint self), self, w).

(** The property [oauth_request_body] (auth.py, lines 15-25). *)
Definition oauth_request_body : M (list (string * pyval)) :=
  client_id ← config_item "client_id";
  client_secret ← config_item "client_secret";
  mret [("client_id", client_id); ("client_secret", client_secret)].

(** Modelled from the spec: the property [oauth_request_payload] is
    inherited from singer_sdk's [OAuthAuthenticator] and not in auth.py.
    Spec 4.1, step 2: "Build a request body: {client_id, client_secret}";
    the payload handed to the POST is the request body. *)
Definition oauth_request_payload : M (list (string * pyval)) :=
  oauth_request_body.

(** The f-string of line 44; [str(ex)] of an [HTTPError] is its message. *)
Definition failed_login_msg (shown : pyval) (ex : exn) : string :=
  "Failed OAuth login, response was '" +:+ py_str shown +:+ "'. "
    +:+ match ex with HTTPError msg _ => msg | _ => "" end.

(** [update_access_token] (auth.py, lines 28-58), statement by statement. *)
Definition update_access_token : M unit :=
  request_time ← utc_now;
  auth_request_payload ← oauth_request_payload;
  endpoint ← auth_endpoint_property;
  token_response ← requests_post endpoint auth_request_payload 60;
  try_except_HTTPError
    (lift (raise_for_status token_response))
    (λ ex,
       shown ← lift (json token_response);
       raise (RuntimeError (failed_login_msg shown ex) ex));;
  logger INFO login_ok_msg;;
  token_json ← lift (json token_response);
  data ← lift (py_getitem token_json "data");
  token ← lift (py_getitem data "token");
  set_attr (set_access_token token);;
  fallback ← get_attr default_expiration;
  expiry ← lift (py_get token_json "expires_in" fallback);
  set_attr (set_expires_in expiry);;
  stored ← get_attr expires_in;
  match stored with
  | PNone => logger DEBUG never_expires_msg
  | _ => mret ()
  end;;
  set_attr (set_last_refreshed request_time).

End Refresh.

(** ** Construction *)

(** The stream an authenticator is built for; the constructor reads its
    configuration. *)
Record stream : Type := Stream { stream_config : gmap string pyval }.

(** Modelled from the spec: [__init__] is inherited from singer_sdk's
    [OAuthAuthenticator] and not in auth.py.  Spec 3: "TokenState starts
    empty", "access_token: opaque string, absent until first refresh";
    spec 6: "Consumed configuration: client_id, client_secret, optional
    default_expiration".  The configuration comes from the stream, the
    keyword arguments are stored, and the token attributes start as
    [None]. *)
Definition init (s : stream) (endpoint scopes : string) (default_exp : pyval)
    : PersonioAuthenticator :=
  {| config := stream_config s; auth_endpoint := endpoint;
     oauth_scopes := scopes; default_expiration := default_exp;
     access_token := PNone; expires_in := PNone; last_refreshed := None |}.

(** [create_for_stream] (auth.py, lines 62-76), when it builds the
    instance. *)
Definition create_for_stream (s : stream) : PersonioAuthenticator :=
  init s "https://api.personio.de/v1/auth" "" PNone.

(** ** What a refresh can do, case by case *)

(** [token_json["data"]["token"]] of line 50. *)
Definition nested_token (j : pyval) : outcome pyval :=
  match py_getitem j "data" with
  | Ok d => py_getitem d "token"
  | Raise e => Raise e
  end.

(** The receiver after lines 50, 51 and 58 all ran. *)
Definition refreshed (tok exp : pyval) (t : Z) (o : PersonioAuthenticator)
    : PersonioAuthenticator :=
  set_last_refreshed t (set_expires_in exp (set_access_token tok o)).

(** The log records of a refresh that got through. *)
Definition success_log (exp : pyval) : list (log_level * string) :=
  (INFO, login_ok_msg) ::
  match exp with PNone => [(DEBUG, never_expires_msg)] | _ => [] end.

(** The three token attributes, and the rest of the object. *)
Definition token_state (o : PersonioAuthenticator) : pyval * pyval * option Z :=
  (access_token o, expires_in o, last_refreshed o).

Definition settings (o : PersonioAuthenticator)
    : gmap string pyval * string * string * pyval :=
  (config o, auth_endpoint o, oauth_scopes o, default_expiration o).

Section Runs.

Variable py_str : pyval → string.
Variable net : world → request → N * outcome response.

(** The refresh of [self] in world [w] handed [rq] to [requests.post], which
    took [elapsed] and ended in [out]. *)
Definition posted (self : PersonioAuthenticator) (w : world) (rq : request)
    (elapsed : N) (out : outcome response) : Prop :=
  ∃ a b, config self !! "client_id" = Some a ∧
         config self !! "client_secret" = Some b ∧
         auth_endpoint self ≠ "" ∧
         rq = Request "POST" (auth_endpoint self)
                [("client_id", a); ("client_secret", b)] 60 ∧
         net w rq = (elapsed, out).

(** Every way a call of [update_access_token] can go, with the outcome, the
    receiver and the world it ends in. *)
Inductive refresh_run (self : PersonioAuthenticator) (w : world)
    : outcome unit → PersonioAuthenticator → world → Prop :=
  | run_no_client_id :
      config self !! "client_id" = None →
      refresh_run self w (Raise (KeyError "client_id")) self w
  | run_no_client_secret :
      is_Some (config self !! "client_id") →
      config self !! "client_secret" = None →
      refresh_run self w (Raise (KeyError "client_secret")) self w
  | run_no_endpoint :
      is_Some (config self !! "client_id") →
      is_Some (config self !! "client_secret") →
      auth_endpoint self = "" →
      refresh_run self w (Raise (ValueError endpoint_not_set_msg)) self w
  | run_post_raises rq d e :
      posted self w rq d (Raise e) →
      refresh_run self w (Raise e) self (after_post w rq d)
  | run_http_error rq d r msg shown :
      posted self w rq d (Ok r) →
      http_error_msg r = Some msg →
      body r = Some shown →
      refresh_run self w
        (Raise (RuntimeError
                  (failed_login_msg py_str shown (HTTPError msg (status_code r)))
                  (HTTPError msg (status_code r))))
        self (after_post w rq d)
  | run_http_error_undecoded rq d r msg :
      posted self w rq d (Ok r) →
      http_error_msg r = Some msg →
      body r = None →
      refresh_run self w (Raise JSONDecodeError) self (after_post w rq d)
  | run_not_json rq d r :
      posted self w rq d (Ok r) →
      http_error_msg r = None →
      body r = None →
      refresh_run self w (Raise JSONDecodeError) self
        (after_log (after_post w rq d) [(INFO, login_ok_msg)])
  | run_no_token rq d r j e :
      posted self w rq d (Ok r) →
      http_error_msg r = None →
      body r = Some j →
      nested_token j = Raise e →
      refresh_run self w (Raise e) self
        (after_log (after_post w rq d) [(INFO, login_ok_msg)])
  | run_ok rq d r items tok :
      posted self w rq d (Ok r) →
      http_error_msg r = None →
      body r = Some (PDict items) →
      nested_token (PDict items) = Ok tok →
      let exp := default (default_expiration self) (dict_lookup "expires_in" items) in
      refresh_run self w (Ok ())
        (refreshed tok exp (clock w) self)
        (after_log (after_post w rq d) (success_log exp)).

(** ** The token provider's read side *)

(** Modelled from the spec: [isValid] is not defined in auth.py; the class
    inherits its validity check from singer_sdk's [OAuthAuthenticator].
    Spec 4.1: "true iff access_token is present and not expired per the
    invariant above"; spec 3: "if expires_in is present, the token is
    considered invalid for use once now >= last_refreshed + expires_in; if
    absent, token never expires once fetched".  [expires_in] counts seconds,
    the clock microseconds; a stored [expires_in] that is no whole number of
    seconds is no duration, and the token is then not valid. *)
Definition isValid (self : PersonioAuthenticator) (now : Z) : bool :=
  match access_token self with
  | PNone => false
  | _ =>
      match expires_in self with
      | PNone => true
      | PInt secs =>
          match last_refreshed self with
          | Some t => bool_decide (now < t + secs * 1000000)
          | None => false
          end
      | _ => false
      end
  end.

(** Modelled from the spec: [getToken] is not defined in auth.py either.
    Spec 4.1: "returns current access_token if isValid(), otherwise performs
    a synchronous refresh first, then returns it; fails with AuthError if
    refresh fails".  The refresh is [update_access_token] above. *)
Definition getToken : M pyval :=
  now ← utc_now;
  valid ← get_attr (λ self, isValid self now);
  (if valid : bool then mret () else update_access_token py_str net);;
  get_attr access_token.

(** ** The claims that fail, as the spec words them *)

(** The call fails with the documented error and leaves the token state as
    it was. *)
Definition fails_with_RuntimeError_unchanged (self : PersonioAuthenticator)
    (w : world) : Prop :=
  let '(out, self', _) := update_access_token py_str net self w in
  (∃ msg cause, out = Raise (RuntimeError msg cause)) ∧
  token_state self' = token_state self.

(** Spec 4.1 and 6 count any non-2xx status as a failure, and ask at least
    this of it. *)
Definition non_2xx_fails_with_RuntimeError : Prop :=
  ∀ self w rq d r,
    posted self w rq d (Ok r) →
    ¬ (200 ≤ status_code r < 300) →
    fails_with_RuntimeError_unchanged self w.

(** Spec 4.1 and 7: a 2xx body that is not JSON or has no [data.token]
    fails with the one error kind too. *)
Definition malformed_2xx_fails_with_RuntimeError : Prop :=
  ∀ self w rq d r,
    posted self w rq d (Ok r) →
    200 ≤ status_code r < 300 →
    (body r = None ∨ ∃ j e, body r = Some j ∧ nested_token j = Raise e) →
    let '(out, _, _) := update_access_token py_str net self w in
    ∃ msg cause, out = Raise (RuntimeError msg cause).

(** Spec 4.1: [getToken] fails with the one error kind iff its refresh
    fails. *)
Definition getToken_fails_with_RuntimeError_iff_refresh_fails : Prop :=
  ∀ self w,
    isValid self (clock w) = false →
    (∃ msg cause, (getToken self w).1.1 = Raise (RuntimeError msg cause))
    ↔ raised (update_access_token py_str net self w).1.1.

End Runs.

(** ** One instance per configuration *)

Section Singleton.

(** What identifies a configuration. *)
Context {K : Type} `{Countable K}.
Variable fingerprint : gmap string pyval → K.

(** A process: the authenticator objects it has built, each known by its
    position, the instance kept for each configuration, and the world. *)
Record process : Type := Process {
  heap : list PersonioAuthenticator;
  instances : gmap K nat;
  outside : world;
}.

Definition start (w : world) : process := Process [] ∅ w.

(** Modelled from the spec: the metaclass [SingletonMeta] of line 12 is
    singer_sdk's and not in auth.py.  Spec 3: "One TokenState instance is
    intended to be shared by all callers within a process to avoid redundant
    token requests (a singleton-by-config policy, not hard concurrency
    control)"; spec 9: "a shared-instance pattern keyed by configuration
    identity ... a mapping from configuration fingerprint to one
    TokenProvider instance, constructed lazily".  Calling the class, as
    [create_for_stream] does, returns the instance kept for the
    configuration and builds one only when there is none. *)
Definition shared_create_for_stream (s : stream) (p : process) : nat * process :=
  let key := fingerprint (stream_config s) in
  match instances p !! key with
  | Some l => (l, p)
  | None =>
      let l := length (heap p) in
      (l, {| heap := heap p ++ [create_for_stream s];
             instances := <[key := l]> (instances p);
             outside := outside p |})
  end.

(** A method call on the object at [l]; [None] when there is no such
    object. *)
Definition call {A} (l : nat) (m : M A) (p : process)
    : option (outcome A * process) :=
  match heap p !! l with
  | Some self =>
      let '(out, self', w') := m self (outside p) in
      Some (out, {| heap := <[l := self']> (heap p);
                    instances := instances p;
                    outside := w' |})
  | None => None
  end.

(** How a process moves on: some caller asks for the authenticator of a
    stream, some caller invokes a method on an instance, or the world
    changes by itself (time passes). *)
Inductive evolves : process → process → Prop :=
  | ev_here p : evolves p p
  | ev_create p q s : evolves p q → evolves p (shared_create_for_stream s q).2
  | ev_call (A : Type) p q l (m : M A) (out : outcome A) q' :
      evolves p q → call l m q = Some (out, q') → evolves p q'
  | ev_world p q w' :
      evolves p q → evolves p {| heap := heap q; instances := instances q; outside := w' |}.

(** Every kept instance is an object of the heap. *)
Definition instances_live (p : process) : Prop :=
  ∀ k l, instances p !! k = Some l → is_Some (heap p !! l).

End Singleton.

(** ** The life of an instance *)

Section Lifetime.

Variable py_str : pyval → string.
Variable net : world → request → N * outcome response.

(** What the callers of an authenticator do to it over time: they call
    [update_access_token], whatever it returns or raises, and between calls
    time passes.  [lifetime n self w self' w'] counts the calls. *)
Inductive lifetime (self : PersonioAuthenticator) (w : world)
    : nat → PersonioAuthenticator → world → Prop :=
  | life_start : lifetime self w 0 self w
  | life_refresh n s1 w1 out s2 w2 :
      lifetime self w n s1 w1 →
      update_access_token py_str net s1 w1 = (out, s2, w2) →
      lifetime self w (S n) s2 w2
  | life_wait n s1 w1 (d : N) :
      lifetime self w n s1 w1 →
      lifetime self w n s1
        {| clock := clock w1 + Z.of_N d; sent := sent w1; logged := logged w1 |}.

(** The token attributes make sense at the time of [w]: before the first
    successful refresh all three are [None]; after it [last_refreshed] is a
    reading of the clock that is not in the future. *)
Definition token_state_sound (self : PersonioAuthenticator) (w : world) : Prop :=
  match last_refreshed self with
  | None => access_token self = PNone ∧ expires_in self = PNone
  | Some t => t ≤ clock w
  end.

(** What a refresh reads of its receiver: the two credentials, the endpoint
    and the default expiration. *)
Definition same_inputs (a b : PersonioAuthenticator) : Prop :=
  config a !! "client_id" = config b !! "client_id" ∧
  config a !! "client_secret" = config b !! "client_secret" ∧
  auth_endpoint a = auth_endpoint b ∧
  default_expiration a = default_expiration b.

(** The records a call adds to the log, given what the network did and how
    the call ended. *)
Definition records_of (o : outcome response) (out : outcome ())
    (self' : PersonioAuthenticator) : list (log_level * string) :=
  match o with
  | Ok r =>
      if bool_decide (400 ≤ status_code r < 600) then []
      else (INFO, login_ok_msg) ::
           match out, expires_in self' with
           | Ok _, PNone => [(DEBUG, never_expires_msg)]
           | _, _ => []
           end
  | Raise _ => []
  end.

End Lifetime.

(** ** Sample data *)

Definition sample_config : gmap string pyval :=
  {[ "client_id" := PStr "id-1"; "client_secret" := PStr "s3cret" ]}.

Definition sample_auth : PersonioAuthenticator :=
  create_for_stream (Stream sample_config).

Definition sample_request : request :=
  Request "POST" "https://api.personio.de/v1/auth"
    [("client_id", PStr "id-1"); ("client_secret", PStr "s3cret")] 60.

Definition world0 : world := World 1000000 [] [].

(** A server that answers every request with [r] after [d] microseconds. *)
Definition answer (d : N) (r : response) : world → request → N * outcome response :=
  λ _ _, (d, Ok r).

Definition respond (status : Z) (why : string) (content : option pyval) : response :=
  Response status why "https://api.personio.de/v1/auth" content.

Definition ok_body : pyval :=
  PDict [("success", PBool true);
         ("data", PDict [("token", PStr "T")]);
         ("expires_in", PInt 3600)].

Definition ok_response : response := respond 200 "OK" (Some ok_body).

Definition unauthorized : response :=
  respond 401 "Unauthorized" (Some (PDict [("success", PBool false)])).

(** A gateway's HTML error page: not JSON. *)
Definition bad_gateway : response := respond 502 "Bad Gateway" None.

Definition multiple_choices : response :=
  respond 300 "Multiple Choices" (Some ok_body).

(** The body [{"data": {}}]. *)
Definition no_token : response :=
  respond 200 "OK" (Some (PDict [("data", PDict [])])).

(** The body [{"data": {"token": "T"}, "expires_in": null}]. *)
Definition null_expiry : response :=
  respond 200 "OK"
    (Some (PDict [("data", PDict [("token", PStr "T")]); ("expires_in", PNone)])).

(** The shape Personio documents: [expires_in] sits inside [data]. *)
Definition personio_body : pyval :=
  PDict [("success", PBool true);
         ("data", PDict [("token", PStr "T"); ("expires_in", PInt 86400)])].

(** An instance built with a default expiration of one hour. *)
Definition sample_auth_hourly : PersonioAuthenticator :=
  init (Stream sample_config) "https://api.personio.de/v1/auth" "" (PInt 3600).

(** The class-wide key: one instance whatever the configuration. *)
Definition one_key : gmap string pyval → () := λ _, ().

(** A process in which one caller built the authenticator and read the
    token once. *)
Definition sample_process_built : process (K:=()) :=
  (shared_create_for_stream one_key (Stream sample_config) (start world0)).2.

(** A network on which every request times out after a minute. *)
Definition timing_out : world → request → N * outcome response :=
  λ _ _, (60000000%N, Raise (RequestException "ReadTimeout")).

(** A plain rendering, enough to run the examples. *)
Definition str0 (v : pyval) : string :=
  match v with
  | PDict [] => "{}"
  | PNone => "None"
  | _ => "<" +:+ py_type v +:+ ">"
  end.

(** The refresh of [self] in [world0] when the server answers [r] after
    250 microseconds. *)
Definition run_of (r : response) (self : PersonioAuthenticator)
    : outcome () * PersonioAuthenticator * world :=
  update_access_token str0 (answer 250 r) self world0.

Definition sample_process_read : process (K:=()) :=
  match call 0 (getToken str0 (answer 250 ok_response)) sample_process_built with
  | Some (_, q) => q
  | None => sample_process_built
  end.

(** The body [{"data": {"token": null}}]. *)
Definition null_token : response :=
  respond 200 "OK" (Some (PDict [("data", PDict [("token", PNone)])])).

(** An object with the credentials, endpoint and default of [sample_auth],
    another scope, one more configuration entry and a token from before. *)
Definition sample_auth_busy : PersonioAuthenticator :=
  {| config := <["start_date" := PStr "2024-01-01"]> sample_config;
     auth_endpoint := "https://api.personio.de/v1/auth";
     oauth_scopes := "employees:read";
     default_expiration := PNone;
     access_token := PStr "old";
     expires_in := PInt 60;
     last_refreshed := Some 5 |}.

(** A life of two refreshes, five seconds apart. *)
Definition life_first : outcome () * PersonioAuthenticator * world :=
  run_of ok_response sample_auth.

Definition life_waited : world :=
  {| clock := clock life_first.2 + Z.of_N 5000000;
     sent := sent life_first.2; logged := logged life_first.2 |}.

Definition life_second : outcome () * PersonioAuthenticator * world :=
  update_access_token str0 (answer 250 ok_response) life_first.1.2 life_waited.

(** A configuration with the client id and no secret. *)
Definition only_client_id : gmap string pyval :=
  {[ "client_id" := PStr "id-1" ]}.

(** An object that holds a token from before: token "old", an expiry of
    60 seconds, refreshed at 5. *)
Definition stale (o : PersonioAuthenticator) : PersonioAuthenticator :=
  set_last_refreshed 5 (set_expires_in (PInt 60) (set_access_token (PStr "old") o)).

(** An instance built with a default expiration of two hours. *)
Definition sample_auth_two_hours : PersonioAuthenticator :=
  init (Stream sample_config) "https://api.personio.de/v1/auth" "" (PInt 7200).

(** Seventy seconds on the clock: the token of [stale] has expired. *)
Definition world_later : world := World 70000000 [] [].

Definition personio_response : response := respond 200 "OK" (Some personio_body).

(** * Properties *)

Section RefreshFacts.

Variable py_str : pyval → string.
Variable net : world → request → N * outcome response.

(** ** The refresh, case by case *)

Lemma after_log_app w r1 r2 :
  after_log (after_log w r1) r2 = after_log w (r1 ++ r2).
Proof. unfold after_log; simpl. by rewrite <- app_assoc. Qed.

(** Every call of [update_access_token] is one of the runs of
    [refresh_run]. *)
Lemma update_access_token_run self w :
  let '(out, self', w') := update_access_token py_str net self w in
  refresh_run py_str net self w out self' w'.
Proof.
  unfold update_access_token, oauth_request_payload, oauth_request_body.
  unfold mbind, M_mbind, M_bind, utc_now, config_item, get_attr, requests_post,
    auth_endpoint_property; simpl.
  destruct (config self !! "client_id") as [a|] eqn:Ha; [|by constructor].
  destruct (config self !! "client_secret") as [b|] eqn:Hb;
    [|by constructor; [rewrite Ha; eauto|]].
  simpl.
  destruct (decide (auth_endpoint self = "")) as [Hurl|Hurl];
    [by constructor; rewrite ?Ha, ?Hb; eauto|].
  destruct (net w _) as [d out] eqn:Hnet.
  assert (Hp : posted net self w (Request "POST" (auth_endpoint self)
                [("client_id", a); ("client_secret", b)] 60) d out)
    by (exists a, b; eauto).
  destruct out as [r|e]; [|by constructor].
  unfold try_except_HTTPError, lift, raise_for_status, json, raise, logger, set_attr.
  destruct (http_error_msg r) as [msg|] eqn:Hm.
  { destruct (body r) as [j|] eqn:Hj; by econstructor. }
  destruct (body r) as [j|] eqn:Hj; [|by econstructor].
  destruct (nested_token j) as [tok|e] eqn:Ht.
  - destruct j; try discriminate Ht.
    unfold nested_token in Ht. simpl in *.
    destruct (dict_lookup "data" items) as [dt|] eqn:Hd; [|discriminate].
    simpl. rewrite Ht. simpl.
    pose proof (run_ok py_str net self w _ _ _ items tok Hp Hm Hj) as Hok.
    unfold nested_token in Hok; simpl in Hok. rewrite Hd in Hok.
    specialize (Hok Ht). simpl in Hok.
    destruct (default (default_expiration self) (dict_lookup "expires_in" items)) eqn:He;
      simpl; rewrite ?after_log_app; exact Hok.
  - pose proof (run_no_token py_str net self w _ _ _ j e Hp Hm Hj Ht) as Hno.
    unfold nested_token in Ht.
    destruct (py_getitem j "data") as [dt|e'] eqn:Hd; simpl.
    + rewrite Ht. exact Hno.
    + inversion Ht; subst. exact Hno.
Qed.

Lemma refresh_runs self w out self' w' :
  update_access_token py_str net self w = (out, self', w') → refresh_run py_str net self w out self' w'.
Proof. intros E. pose proof (update_access_token_run self w) as R. by rewrite E in R. Qed.

(** A call hands at most one request to the network, and the request and
    its answer are determined by the receiver and the world. *)
Lemma posted_inj self w rq1 d1 o1 rq2 d2 o2 :
  posted net self w rq1 d1 o1 → posted net self w rq2 d2 o2 →
  rq1 = rq2 ∧ d1 = d2 ∧ o1 = o2.
Proof.
  intros (a1 & b1 & Ha1 & Hb1 & _ & -> & N1) (a2 & b2 & Ha2 & Hb2 & _ & -> & N2).
  rewrite Ha1 in Ha2. rewrite Hb1 in Hb2.
  injection Ha2 as ->. injection Hb2 as ->.
  rewrite N1 in N2. by injection N2 as -> ->.
Qed.

Lemma posted_settings self other w rq d o :
  settings other = settings self →
  posted net self w rq d o → posted net other w rq d o.
Proof.
  unfold settings. intros E (a & b & Ha & Hb & Hne & -> & Hn).
  injection E as Ec Ee _ _. exists a, b. by rewrite Ec, Ee.
Qed.

Lemma http_error_msg_range r :
  400 ≤ status_code r < 600 ↔ is_Some (http_error_msg r).
Proof.
  unfold http_error_msg. repeat case_bool_decide; split; intros HH; eauto; try lia.
  by destruct HH.
Qed.

Lemma http_error_msg_status r msg :
  http_error_msg r = Some msg →
  ∃ kind, msg = pretty (status_code r) +:+ kind +:+ reason r
                  +:+ " for url: " +:+ url r.
Proof.
  unfold http_error_msg. repeat case_bool_decide; intros [= <-]; eauto.
Qed.

Lemma nested_token_raised j e :
  nested_token j = Raise e →
  e = KeyError "data" ∨ e = KeyError "token" ∨ ∃ cls, e = TypeError cls.
Proof.
  unfold nested_token, py_getitem. intros E.
  destruct j; simplify_eq; eauto.
  destruct (dict_lookup "data" items) as [dt|]; simplify_eq; eauto.
  destruct dt; simplify_eq; eauto.
  destruct (dict_lookup "token" items0); simplify_eq; eauto.
Qed.

(** The runs of a call that is known to have posted [rq] and got [out]:
    the runs that stop before the request are ruled out, and the request of
    the run is identified with the known one. *)
Ltac no_post Hp :=
  let a := fresh in let b := fresh in
  let Ha := fresh in let Hb := fresh in let He := fresh in
  destruct Hp as (a & b & Ha & Hb & He & _);
  repeat match goal with
         | N : _ !! _ = None |- _ => rewrite N in *
         | S : is_Some _ |- _ => destruct S
         end; first [discriminate | done].

Ltac same_post Hp :=
  match goal with
  | P : posted _ _ _ _ _ _ |- _ =>
      assert_fails (constr_eq P Hp);
      let E1 := fresh in let E2 := fresh in let E3 := fresh in
      destruct (posted_inj _ _ _ _ _ _ _ _ Hp P) as (E1 & E2 & E3);
      clear P; simplify_eq
  end.

Ltac run_cases E Hp :=
  inversion E; subst; try same_post Hp; try (by no_post Hp).

(** ** Failure statuses *)

(** C1, as amended.  When the response has a 4xx or 5xx status, the
    statuses [raise_for_status] raises for, the refresh raises and leaves the
    receiver exactly as it was; and when the body of that response is JSON,
    what it raises is the [RuntimeError] whose message holds the rendered
    body and the HTTP error text, which starts with the status code, with the
    [HTTPError] as its cause. *)
Theorem http_error_raises_and_keeps_state self w rq d r out self' w' :
  posted net self w rq d (Ok r) →
  400 ≤ status_code r < 600 →
  update_access_token py_str net self w = (out, self', w') →
  raised out ∧ self' = self ∧
  ∀ shown, body r = Some shown →
    ∃ msg kind,
      msg = pretty (status_code r) +:+ kind +:+ reason r
              +:+ " for url: " +:+ url r ∧
      out = Raise (RuntimeError
                     ("Failed OAuth login, response was '" +:+ py_str shown
                        +:+ "'. " +:+ msg)
                     (HTTPError msg (status_code r))).
Proof.
  intros Hp Hst E. apply refresh_runs in E.
  apply http_error_msg_range in Hst as [m Hm].
  run_cases E Hp.
  - split; [by eexists|]. split; [done|]. intros shown' Hs. simplify_eq.
    destruct (http_error_msg_status _ _ Hm) as [kind Hk].
    exists m, kind. split; [done|]. done.
  - split; [by eexists|]. split; [done|]. intros shown' Hs. congruence.
Qed.

(** ** Success statuses with a body that has no token *)

(** C2, as amended.  When the response has a 2xx status and its body is not
    JSON, or is JSON without [data.token], the refresh raises the exception
    of the statement that failed, unwrapped: [JSONDecodeError] for a body
    that is not JSON, [KeyError] for a missing key, [TypeError] where a
    non-object is subscripted.  The receiver stays as it was. *)
Theorem malformed_success_raises_unwrapped self w rq d r out self' w' :
  posted net self w rq d (Ok r) →
  200 ≤ status_code r < 300 →
  update_access_token py_str net self w = (out, self', w') →
  (body r = None → out = Raise JSONDecodeError ∧ self' = self) ∧
  (∀ j e, body r = Some j → nested_token j = Raise e →
     out = Raise e ∧ self' = self ∧ is_RuntimeError e = false ∧
     (e = KeyError "data" ∨ e = KeyError "token" ∨ ∃ cls, e = TypeError cls)).
Proof.
  intros Hp Hst E. apply refresh_runs in E.
  assert (Hm : http_error_msg r = None).
  { destruct (http_error_msg r) eqn:Hm; [|done].
    assert (400 ≤ status_code r < 600) by (apply http_error_msg_range; eauto). lia. }
  run_cases E Hp.
  - split; [done|]. intros j e Hj. congruence.
  - split; [congruence|]. intros j' e' Hj Ht.
    assert (j' = j) as -> by congruence.
    assert (e' = e) as -> by congruence.
    pose proof (nested_token_raised _ _ Ht) as Hk.
    repeat split; try done.
    destruct Hk as [->|[->|[c ->]]]; done.
  - split; [congruence|]. intros j' e' Hj Ht. congruence.
Qed.

(** ** What a refresh writes *)

Lemma authenticator_ext (a b : PersonioAuthenticator) :
  settings a = settings b → token_state a = token_state b → a = b.
Proof.
  destruct a, b. unfold settings, token_state; simpl. congruence.
Qed.

Lemma settings_refreshed tok exp t o : settings (refreshed tok exp t o) = settings o.
Proof. done. Qed.

Lemma token_state_refreshed tok exp t o :
  token_state (refreshed tok exp t o) = (tok, exp, Some t).
Proof. done. Qed.

Lemma sent_after_log w recs : sent (after_log w recs) = sent w.
Proof. done. Qed.

(** A run changes the object only through [refreshed], and the world only
    through [after_post] and [after_log]. *)
Lemma refresh_run_frame self w out self' w' :
  refresh_run py_str net self w out self' w' →
  settings self' = settings self ∧
  (sent w' = sent w ∨ ∃ rq, sent w' = sent w ++ [rq]).
Proof. destruct 1; split; simpl; eauto. Qed.

(** Outside the receiver a run lets time pass and adds log records. *)
Lemma refresh_run_world self w out self' w' :
  refresh_run py_str net self w out self' w' →
  clock w ≤ clock w' ∧ ∃ recs, logged w' = logged w ++ recs.
Proof.
  destruct 1; simpl; (split; [lia|]); eauto; by exists []; rewrite app_nil_r.
Qed.

(** The object a successful refresh leaves behind does not depend on the
    token attributes it found. *)
Lemma refresh_forgets_token_state self other w self' w' :
  settings other = settings self →
  update_access_token py_str net self w = (Ok (), self', w') →
  update_access_token py_str net other w = (Ok (), self', w').
Proof.
  intros Hs E. apply refresh_runs in E.
  destruct (update_access_token py_str net other w) as [[out2 o2] w2] eqn:E2.
  apply refresh_runs in E2.
  inversion E; subst.
  match goal with P : posted _ self _ _ _ _ |- _ =>
    pose proof (posted_settings _ _ _ _ _ _ Hs P) as Hp end.
  run_cases E2 Hp; try congruence.
  assert (tok0 = tok) as -> by congruence.
  subst exp exp0.
  replace (default_expiration other) with (default_expiration self)
    by (unfold settings in *; congruence).
  do 2 f_equal.
  apply authenticator_ext; [|done].
  rewrite !settings_refreshed. unfold settings in *. congruence.
Qed.

(** C3.  A refresh either succeeds and sets [access_token], [expires_in] and
    [last_refreshed] together, or raises and leaves the receiver as it was.
    What a successful refresh leaves does not depend on the token attributes
    it found, so a second refresh right after a first one ends in the object
    it would have built without the first.  Nothing else of the receiver
    changes, and the call hands one request to [requests.post] when it
    succeeds and at most one when it raises. *)
Theorem refresh_sets_all_or_nothing self w out self' w' :
  update_access_token py_str net self w = (out, self', w') →
  settings self' = settings self ∧
  (sent w' = sent w ∨ ∃ rq, sent w' = sent w ++ [rq]) ∧
  match out with
  | Ok _ =>
      (∃ tok exp, self' = refreshed tok exp (clock w) self) ∧
      (∃ rq, sent w' = sent w ++ [rq]) ∧
      ∀ other, settings other = settings self →
        update_access_token py_str net other w = (Ok (), self', w')
  | Raise _ => self' = self
  end ∧
  ∀ self2 w2,
    update_access_token py_str net self' w' = (Ok (), self2, w2) →
    update_access_token py_str net self w' = (Ok (), self2, w2).
Proof.
  intros E. pose proof (refresh_runs _ _ _ _ _ E) as R.
  destruct (refresh_run_frame _ _ _ _ _ R) as [Hs Hn].
  repeat split; try done.
  - destruct out as [[]|e].
    + split; [inversion R; eauto|]. split; [inversion R; simpl; eauto|].
      intros other Ho. by apply (refresh_forgets_token_state self).
    + by inversion R.
  - intros self2 w2. by apply refresh_forgets_token_state.
Qed.

(** C4.  After a successful refresh [last_refreshed] is the clock reading
    taken before the request went out; the response arrived when the clock
    had moved on by the time [requests.post] took. *)
Theorem last_refreshed_is_request_time self w self' w' :
  update_access_token py_str net self w = (Ok (), self', w') →
  last_refreshed self' = Some (clock w) ∧
  ∃ rq d r,
    posted net self w rq d (Ok r) ∧
    sent w' = sent w ++ [rq] ∧
    clock w' = clock w + Z.of_N d.
Proof.
  intros E. apply refresh_runs in E. inversion E; subst.
  split; [done|]. eauto 10.
Qed.

(** C5.  When the request is answered with a status that is not 4xx or 5xx
    and a JSON object that has [data.token], the refresh returns, and the
    [expires_in] it stores is the value of the key [expires_in] at the top
    level of the response body; when the key is missing there it is the
    configured [default_expiration]; and when that is [None] as well the
    stored value is [None], which the refresh logs as a token that never
    expires. *)
Theorem expires_in_from_top_level_or_default self w rq d r items tok out self' w' :
  posted net self w rq d (Ok r) →
  ¬ (400 ≤ status_code r < 600) →
  body r = Some (PDict items) →
  nested_token (PDict items) = Ok tok →
  update_access_token py_str net self w = (out, self', w') →
  out = Ok () ∧
  (∀ v, dict_lookup "expires_in" items = Some v → expires_in self' = v) ∧
  (dict_lookup "expires_in" items = None →
     expires_in self' = default_expiration self) ∧
  (dict_lookup "expires_in" items = None → default_expiration self = PNone →
     expires_in self' = PNone ∧
     logged w' = logged w ++ [(INFO, login_ok_msg); (DEBUG, never_expires_msg)]).
Proof.
  intros Hp Hst Hb Ht E. apply refresh_runs in E.
  assert (Hm : http_error_msg r = None).
  { destruct (http_error_msg r) eqn:Hm; [|done].
    destruct Hst. apply http_error_msg_range. eauto. }
  run_cases E Hp; try congruence.
  subst exp. simpl.
  split; [done|]. split; [by intros v ->|].
  split; [by intros ->|].
  intros -> ->. done.
Qed.

(** C6.  After a successful refresh [access_token] is the value found in the
    response body under [data] and then [token]. *)
Theorem access_token_is_data_token self w self' w' :
  update_access_token py_str net self w = (Ok (), self', w') →
  ∃ rq d r j data,
    posted net self w rq d (Ok r) ∧
    body r = Some j ∧
    py_getitem j "data" = Ok data ∧
    py_getitem data "token" = Ok (access_token self').
Proof.
  intros E. apply refresh_runs in E. inversion E; subst.
  match goal with T : nested_token _ = Ok _ |- _ => unfold nested_token in T end.
  destruct (py_getitem (PDict items) "data") as [dt|] eqn:Hd; [|done].
  exists rq, d, r, (PDict items), dt. done.
Qed.

(** C10.  When the request is answered with a status that is not 4xx or 5xx
    and a JSON object that has [data.token], the refresh returns; if the
    body has the key [expires_in] with the value [null], it stores [None],
    whatever [default_expiration] is and whatever was stored before, and logs
    the token as never expiring; the default is stored only when the key is
    missing. *)
Theorem null_expires_in_beats_default self w rq d r items tok out self' w' :
  posted net self w rq d (Ok r) →
  ¬ (400 ≤ status_code r < 600) →
  body r = Some (PDict items) →
  nested_token (PDict items) = Ok tok →
  update_access_token py_str net self w = (out, self', w') →
  out = Ok () ∧
  (dict_lookup "expires_in" items = Some PNone →
     expires_in self' = PNone ∧
     logged w' = logged w ++ [(INFO, login_ok_msg); (DEBUG, never_expires_msg)]) ∧
  (dict_lookup "expires_in" items = None →
     expires_in self' = default_expiration self).
Proof.
  intros Hp Hst Hb Ht E. apply refresh_runs in E.
  assert (Hm : http_error_msg r = None).
  { destruct (http_error_msg r) eqn:Hm; [|done].
    destruct Hst. apply http_error_msg_range. eauto. }
  run_cases E Hp; try congruence.
  subst exp. simpl.
  split; [done|]. split; by intros ->.
Qed.

(** ** The request *)

(** C7.  A refresh of the instance [create_for_stream] builds, whenever in
    its life, hands exactly one request to [requests.post]: a POST to
    https://api.personio.de/v1/auth with a timeout of 60 seconds, whose data
    are the [client_id] and [client_secret] of the configuration and nothing
    else. *)
Theorem refresh_posts_once_to_fixed_endpoint s a b self w out self' w' :
  stream_config s !! "client_id" = Some a →
  stream_config s !! "client_secret" = Some b →
  settings self = settings (create_for_stream s) →
  update_access_token py_str net self w = (out, self', w') →
  sent w' = sent w ++
    [Request "POST" "https://api.personio.de/v1/auth"
       [("client_id", a); ("client_secret", b)] 60].
Proof.
  intros Ha Hb Hs E. apply refresh_runs in E.
  unfold settings, create_for_stream, init in Hs. simpl in Hs.
  injection Hs as Hc He _ _.
  assert (Hrq : ∀ rq d o, posted net self w rq d o →
            rq = Request "POST" "https://api.personio.de/v1/auth"
                   [("client_id", a); ("client_secret", b)] 60).
  { intros rq d o (a' & b' & Ha' & Hb' & _ & -> & _).
    rewrite Hc in Ha', Hb'. rewrite He. congruence. }
  inversion E; subst; simpl;
    try (match goal with P : posted _ _ _ _ _ _ |- _ =>
           by rewrite (Hrq _ _ _ P) end).
  - rewrite Hc in *. congruence.
  - rewrite Hc in *. congruence.
  - congruence.
Qed.

(** ** Failures the refresh does not wrap *)

(** When [requests.post] itself raises (no connection, a timeout), the
    refresh raises that exception as it is and leaves the receiver as it
    was; the request counts as sent. *)
Theorem post_exception_passes_through self w rq d e out self' w' :
  posted net self w rq d (Raise e) →
  update_access_token py_str net self w = (out, self', w') →
  out = Raise e ∧ self' = self ∧ sent w' = sent w ++ [rq].
Proof.
  intros Hp E. apply refresh_runs in E. by run_cases E Hp.
Qed.

(** When the configuration lacks [client_id] or [client_secret], the refresh
    raises [KeyError] for the first missing key, [client_id] when that is
    missing and [client_secret] otherwise, before anything is sent; neither
    the receiver nor the world changes. *)
Theorem missing_credential_raises_before_post self w out self' w' :
  config self !! "client_id" = None ∨ config self !! "client_secret" = None →
  update_access_token py_str net self w = (out, self', w') →
  out = Raise (KeyError match config self !! "client_id" with
                         | None => "client_id"
                         | Some _ => "client_secret"
                         end) ∧
  self' = self ∧ w' = w.
Proof.
  intros Hk E. apply refresh_runs in E.
  inversion E; subst;
    try (match goal with P : posted _ _ _ _ _ _ |- _ =>
           destruct P as (a & b & Ha & Hb & _); destruct Hk; congruence end).
  - match goal with N : _ = None |- _ => by rewrite N end.
  - match goal with S : is_Some _ |- _ => destruct S as [? ->] end. done.
  - repeat match goal with S : is_Some _ |- _ => destruct S end.
    destruct Hk; congruence.
Qed.

(** When the response has a 4xx or 5xx status and a body that is not JSON,
    decoding the body for the error message raises first: the refresh ends
    in [JSONDecodeError], not in [RuntimeError].  The receiver stays as it
    was. *)
Theorem http_error_with_undecodable_body self w rq d r out self' w' :
  posted net self w rq d (Ok r) →
  400 ≤ status_code r < 600 →
  body r = None →
  update_access_token py_str net self w = (out, self', w') →
  out = Raise JSONDecodeError ∧ self' = self.
Proof.
  intros Hp Hst Hb E. apply refresh_runs in E.
  apply http_error_msg_range in Hst as [m Hm].
  run_cases E Hp; first [done | congruence].
Qed.

(** ** The runs are exactly the calls *)

(** Each run of [refresh_run] is what the call computes. *)
Lemma refresh_run_complete self w out self' w' :
  refresh_run py_str net self w out self' w' →
  update_access_token py_str net self w = (out, self', w').
Proof.
  unfold update_access_token, oauth_request_payload, oauth_request_body.
  unfold mbind, M_mbind, M_bind, utc_now, config_item, get_attr, requests_post,
    auth_endpoint_property.
  destruct 1 as [Ha|[a Ha] Hb|[a Ha] [b Hb] Hurl|rq d e Hp|rq d r msg shown Hp Hm Hj
                |rq d r msg Hp Hm Hj|rq d r Hp Hm Hj|rq d r j e Hp Hm Hj Ht
                |rq d r items tok Hp Hm Hj Ht exp];
    try (destruct Hp as (a & b & Ha & Hb & Hurl & -> & Hn));
    simpl; rewrite ?Ha, ?Hb; simpl; try done;
    destruct (decide (auth_endpoint self = "")); try done;
    rewrite Hn; try done;
    unfold try_except_HTTPError, lift, raise_for_status, json, raise, logger, set_attr;
    rewrite Hm, ?Hj; try done.
  - unfold nested_token in Ht.
    destruct (py_getitem j "data") as [dt|e'] eqn:Hd; simpl; [by rewrite Ht|].
    by injection Ht as ->.
  - unfold nested_token in Ht. simpl in Ht |- *.
    destruct (dict_lookup "data" items) as [dt|] eqn:Hd; [|done].
    simpl. rewrite Ht. simpl. subst exp.
    destruct (default (default_expiration self) (dict_lookup "expires_in" items));
      simpl; by rewrite ?after_log_app.
Qed.

(** ** When a refresh succeeds *)

(** A refresh returns exactly when the credentials are configured, the
    request is answered, the status is not 4xx or 5xx, and the body is JSON
    with something under [data] and then [token]; and it stores that
    something, whatever it is: a [null] or a number at [data.token] is
    accepted like a string. *)
Theorem refresh_succeeds_iff self w out self' w' :
  update_access_token py_str net self w = (out, self', w') →
  (out = Ok () ↔
   ∃ rq d r j tok,
     posted net self w rq d (Ok r) ∧ ¬ (400 ≤ status_code r < 600) ∧
     body r = Some j ∧ nested_token j = Ok tok) ∧
  (∀ rq d r j tok,
     posted net self w rq d (Ok r) → ¬ (400 ≤ status_code r < 600) →
     body r = Some j → nested_token j = Ok tok →
     out = Ok () ∧ access_token self' = tok).
Proof.
  intros E. apply refresh_runs in E.
  assert (Hall : ∀ rq d r j tok,
     posted net self w rq d (Ok r) → ¬ (400 ≤ status_code r < 600) →
     body r = Some j → nested_token j = Ok tok →
     out = Ok () ∧ access_token self' = tok).
  { intros rq d r j tok Hp Hst Hj Ht.
    assert (Hm : http_error_msg r = None).
    { destruct (http_error_msg r) eqn:Hm; [|done].
      destruct Hst. apply http_error_msg_range. eauto. }
    run_cases E Hp; try congruence.
    split; [done|]. simpl. congruence. }
  split; [|exact Hall]. split.
  - intros ->. inversion E; subst.
    exists rq, d, r, (PDict items), tok. repeat split; try done.
    intros Hst. apply http_error_msg_range in Hst as [m Hm]. congruence.
  - intros (rq & d & r & j & tok & Hp & Hst & Hj & Ht).
    by destruct (Hall _ _ _ _ _ Hp Hst Hj Ht).
Qed.

(** ** What a refresh raises *)

(** Once the request is answered, a refresh that raises raises one of:
    [RuntimeError] caused by the [HTTPError] of a 4xx or 5xx status,
    [JSONDecodeError], [KeyError] for [data] or [token], or [TypeError].  It
    never raises [AttributeError]: the [.get] of line 51 runs only on a body
    that line 50 found to be a dict, so no call stops between the write of
    [access_token] and the write of [last_refreshed]; the receiver of a
    raising call is as it was. *)
Theorem answered_refresh_raises_one_of self w rq d r e self' w' :
  posted net self w rq d (Ok r) →
  update_access_token py_str net self w = (Raise e, self', w') →
  self' = self ∧
  ((∃ msg m, e = RuntimeError msg (HTTPError m (status_code r)) ∧
             400 ≤ status_code r < 600) ∨
   e = JSONDecodeError ∨ e = KeyError "data" ∨ e = KeyError "token" ∨
   ∃ cls, e = TypeError cls) ∧
  ∀ cls attr, e ≠ AttributeError cls attr.
Proof.
  intros Hp E. apply refresh_runs in E.
  assert (Hone : self' = self ∧
    ((∃ msg m, e = RuntimeError msg (HTTPError m (status_code r)) ∧
               400 ≤ status_code r < 600) ∨
     e = JSONDecodeError ∨ e = KeyError "data" ∨ e = KeyError "token" ∨
     ∃ cls, e = TypeError cls)).
  { run_cases E Hp; split; try done; eauto.
    - left. do 2 eexists. split; [done|]. apply http_error_msg_range. eauto.
    - match goal with T : nested_token _ = Raise _ |- _ =>
        destruct (nested_token_raised _ _ T) as [->|[->|[c ->]]] end; eauto 8. }
  destruct Hone as [Hs Hk]. split; [done|]. split; [done|].
  intros cls attr ->.
  destruct Hk as [(? & ? & ? & _)|[?|[?|[?|[? ?]]]]]; discriminate.
Qed.

(** ** What a refresh logs *)

(** The record "OAuth authorization attempt was successful." is written as
    soon as the status is not 4xx or 5xx, before the body is decoded: it is
    in the log also when the call then raises for a body without a token.
    The never-expires record follows it exactly when the call returns with
    [expires_in] stored as [None].  A call that got no response, or one with
    a 4xx or 5xx status, logs nothing. *)
Theorem refresh_log_records self w rq d o out self' w' :
  posted net self w rq d o →
  update_access_token py_str net self w = (out, self', w') →
  logged w' = logged w ++ records_of o out self'.
Proof.
  intros Hp E. apply refresh_runs in E. unfold records_of.
  run_cases E Hp; simpl; rewrite ?app_nil_r; try done;
    try (case_bool_decide as Hst;
         [apply http_error_msg_range in Hst as [? ?]; congruence|]);
    try (case_bool_decide as Hst;
         [|destruct Hst; apply http_error_msg_range; eauto]);
    rewrite ?app_nil_r; done.
Qed.

(** ** What a refresh reads *)

Lemma posted_same_inputs a b w rq d o :
  same_inputs a b → posted net a w rq d o → posted net b w rq d o.
Proof.
  intros (Hi & Hs & He & _) (x & y & Hx & Hy & Hurl & -> & Hn).
  exists x, y. rewrite <- Hi, <- Hs, <- He. done.
Qed.

Lemma refresh_run_same_inputs a b w out a' w' :
  same_inputs a b →
  refresh_run py_str net a w out a' w' →
  ∃ b', refresh_run py_str net b w out b' w' ∧
        match out with
        | Ok _ => token_state b' = token_state a'
        | Raise _ => a' = a ∧ b' = b
        end.
Proof.
  intros Hs R. pose proof Hs as (Hi & Hc & He & Hd).
  destruct R as [Ha|Ha Hb|Ha Hb Hurl|rq d e Hp|rq d r msg shown Hp Hm Hj
                |rq d r msg Hp Hm Hj|rq d r Hp Hm Hj|rq d r j e Hp Hm Hj Ht
                |rq d r items tok Hp Hm Hj Ht exp];
    try (apply (posted_same_inputs _ _ _ _ _ _ Hs) in Hp).
  - exists b. split; [|done]. constructor. by rewrite <- Hi.
  - exists b. split; [|done]. constructor; by rewrite <- ?Hi, <- ?Hc.
  - exists b. split; [|done]. constructor; by rewrite <- ?Hi, <- ?Hc, <- ?He.
  - exists b. split; [|done]. by constructor.
  - exists b. split; [|done]. by constructor.
  - exists b. split; [|done]. by econstructor.
  - exists b. split; [|done]. by econstructor.
  - exists b. split; [|done]. by econstructor.
  - exists (refreshed tok exp (clock w) b). split; [|done].
    subst exp. rewrite Hd. by econstructor.
Qed.

(** A refresh reads of its receiver only the two credentials, the endpoint
    and the default expiration.  Two objects that agree on these, whatever
    their scopes, their other configuration entries and their current token,
    end the same way in the same world: the same outcome, the same request
    and log records, and after a success the same token state; after a raise
    each is as it was. *)
Theorem refresh_reads_only_its_inputs a b w out a' w' :
  same_inputs a b →
  update_access_token py_str net a w = (out, a', w') →
  ∃ b',
    update_access_token py_str net b w = (out, b', w') ∧
    match out with
    | Ok _ => token_state b' = token_state a'
    | Raise _ => a' = a ∧ b' = b
    end.
Proof.
  intros Hs E. apply refresh_runs in E.
  destruct (refresh_run_same_inputs _ _ _ _ _ _ Hs E) as (b' & R & Hb).
  exists b'. split; [by apply refresh_run_complete|done].
Qed.

(** ** Over the life of an instance *)

Lemma refresh_run_sent self w out self' w' a b :
  refresh_run py_str net self w out self' w' →
  config self !! "client_id" = Some a →
  config self !! "client_secret" = Some b →
  auth_endpoint self ≠ "" →
  sent w' = sent w ++
    [Request "POST" (auth_endpoint self) [("client_id", a); ("client_secret", b)] 60].
Proof.
  intros R Ha Hb Hurl.
  assert (Hrq : ∀ rq d o, posted net self w rq d o →
            rq = Request "POST" (auth_endpoint self)
                   [("client_id", a); ("client_secret", b)] 60).
  { intros rq d o (a' & b' & Ha' & Hb' & _ & -> & _). congruence. }
  destruct R; simpl;
    try (match goal with P : posted _ _ _ _ _ _ |- _ =>
           by rewrite (Hrq _ _ _ P) end); congruence.
Qed.

(** However many refreshes an instance goes through, and however they end,
    its configuration, endpoint, scopes and default expiration stay what
    they were; and when the two credentials are configured and the endpoint
    is set, [n] calls hand [n] requests to [requests.post], all the same
    one. *)
Theorem lifetime_keeps_settings_and_counts_requests self w n self' w' :
  lifetime py_str net self w n self' w' →
  settings self' = settings self ∧
  ∀ a b,
    config self !! "client_id" = Some a →
    config self !! "client_secret" = Some b →
    auth_endpoint self ≠ "" →
    sent w' = sent w ++
      replicate n (Request "POST" (auth_endpoint self)
                     [("client_id", a); ("client_secret", b)] 60).
Proof.
  induction 1 as [|n s1 w1 out s2 w2 _ [IHs IHn] E|n s1 w1 d _ IH].
  - split; [done|]. intros a b _ _ _. simpl. by rewrite app_nil_r.
  - apply refresh_runs in E.
    destruct (refresh_run_frame _ _ _ _ _ E) as [Hs _].
    split; [congruence|]. intros a b Ha Hb Hurl.
    assert (Hc : config s1 = config self ∧ auth_endpoint s1 = auth_endpoint self).
    { unfold settings in IHs. by injection IHs as -> -> _ _. }
    destruct Hc as [Hc He].
    rewrite (refresh_run_sent _ _ _ _ _ a b E) by by rewrite ?Hc, ?He.
    rewrite (IHn a b Ha Hb Hurl), He, <- app_assoc. f_equal.
    change (S n) with (1 + n)%nat. rewrite Nat.add_comm, replicate_add. done.
  - exact IH.
Qed.

(** From a sound token state every life keeps it sound: [last_refreshed] is
    never in the future, it never moves back, and as long as it is [None]
    the token and its expiry are [None] too.  The clock only moves
    forward. *)
Theorem lifetime_keeps_token_state_sound self w n self' w' :
  token_state_sound self w →
  lifetime py_str net self w n self' w' →
  token_state_sound self' w' ∧
  clock w ≤ clock w' ∧
  ∀ t, last_refreshed self = Some t →
       ∃ t', last_refreshed self' = Some t' ∧ t ≤ t'.
Proof.
  intros H0. induction 1 as [|n s1 w1 out s2 w2 _ (IHs & IHc & IHt) E|n s1 w1 d _ (IHs & IHc & IHt)].
  - split; [done|]. split; [lia|]. eauto with lia.
  - apply refresh_runs in E.
    destruct (refresh_run_world _ _ _ _ _ E) as [Hc _].
    assert (Hcase : s2 = s1 ∨ last_refreshed s2 = Some (clock w1)).
    { destruct E; eauto. }
    split; [|split; [lia|]].
    + destruct Hcase as [->|Hl].
      * unfold token_state_sound in *. destruct (last_refreshed s1); [lia|done].
      * unfold token_state_sound. rewrite Hl. lia.
    + intros t Ht. destruct (IHt t Ht) as (t1 & H1 & Hle).
      destruct Hcase as [->|Hl]; [eauto|].
      exists (clock w1). split; [done|].
      unfold token_state_sound in IHs. rewrite H1 in IHs. lia.
  - split; [|split; [simpl; lia|done]].
    unfold token_state_sound in *. destruct (last_refreshed s1); simpl; [lia|done].
Qed.

(** ** Instances built by [create_for_stream] *)

(** [create_for_stream] passes no default expiration.  So for the instance
    it builds, a successful refresh stores the [expires_in] found at the top
    level of the response body and [None] when that key is missing, in which
    case the never-expires record is logged: an [expires_in] anywhere else
    in the body does not count. *)
Theorem created_instance_has_no_default s self w self' w' :
  settings self = settings (create_for_stream s) →
  update_access_token py_str net self w = (Ok (), self', w') →
  ∃ rq d r items,
    posted net self w rq d (Ok r) ∧
    body r = Some (PDict items) ∧
    expires_in self' = default PNone (dict_lookup "expires_in" items) ∧
    (dict_lookup "expires_in" items = None →
       logged w' = logged w ++ [(INFO, login_ok_msg); (DEBUG, never_expires_msg)]).
Proof.
  intros Hs E. apply refresh_runs in E.
  assert (Hd : default_expiration self = PNone).
  { unfold settings in Hs. by injection Hs as _ _ _ ->. }
  inversion E; subst. exists rq, d, r, items. subst exp. rewrite Hd. simpl.
  repeat split; try done. by intros ->.
Qed.

(** The instance [create_for_stream] builds starts with a sound, empty
    token state. *)
Lemma create_for_stream_sound s w : token_state_sound (create_for_stream s) w.
Proof. by split. Qed.

(** ** What the reader of the token relies on *)

(** A refresh that returned stored the [data.token] of the one response it
    got. *)
Lemma refresh_run_ok_token self w self' w' :
  refresh_run py_str net self w (Ok ()) self' w' →
  ∃ rq d r j data,
    posted net self w rq d (Ok r) ∧ sent w' = sent w ++ [rq] ∧
    body r = Some j ∧ py_getitem j "data" = Ok data ∧
    py_getitem data "token" = Ok (access_token self').
Proof.
  inversion 1; subst.
  match goal with T : nested_token _ = Ok _ |- _ => unfold nested_token in T end.
  destruct (py_getitem (PDict items) "data") as [dt|] eqn:Hd; [|done].
  exists rq, d, r, (PDict items), dt. done.
Qed.

(** What an answered refresh raises, by the status of the answer. *)
Lemma refresh_run_raise_by_status self w rq d r e self' w' :
  posted net self w rq d (Ok r) →
  refresh_run py_str net self w (Raise e) self' w' →
  self' = self ∧
  (is_RuntimeError e = true →
     400 ≤ status_code r < 600 ∧ is_Some (body r)) ∧
  (400 ≤ status_code r < 600 → ∀ shown, body r = Some shown →
     ∃ msg m, e = RuntimeError msg (HTTPError m (status_code r))) ∧
  (¬ (400 ≤ status_code r < 600) →
     e = JSONDecodeError ∨ e = KeyError "data" ∨ e = KeyError "token" ∨
     ∃ cls, e = TypeError cls).
Proof.
  intros Hp E.
  run_cases E Hp; (split; [done|]).
  - split; [intros _; split; [apply http_error_msg_range|]; eauto|].
    split; [eauto|]. intros Hst. destruct Hst. apply http_error_msg_range. eauto.
  - split; [done|]. split; [intros _ shown; congruence|].
    intros Hst. destruct Hst. apply http_error_msg_range. eauto.
  - split; [done|]. split; [|eauto].
    intros Hst. apply http_error_msg_range in Hst as [? ?]. congruence.
  - match goal with T : nested_token _ = Raise _ |- _ =>
      pose proof (nested_token_raised _ _ T) as Hk end.
    split; [by destruct Hk as [->|[->|[c ->]]]|]. split; [|eauto].
    intros Hst. apply http_error_msg_range in Hst as [? ?]. congruence.
Qed.

End RefreshFacts.

(** ** Reading the token *)

Section TokenFacts.

Variable py_str : pyval → string.
Variable net : world → request → N * outcome response.

(** While the token is valid [getToken] hands it out and changes nothing. *)
Lemma getToken_valid self w :
  isValid self (clock w) = true →
  getToken py_str net self w = (Ok (access_token self), self, w).
Proof.
  intros Hv. unfold getToken, mbind, M_mbind, M_bind, utc_now, get_attr; simpl.
  by rewrite Hv.
Qed.

(** Otherwise it is the refresh followed by the read of [access_token]. *)
Lemma getToken_invalid self w out self' w' :
  isValid self (clock w) = false →
  update_access_token py_str net self w = (out, self', w') →
  getToken py_str net self w
    = (match out with Ok _ => Ok (access_token self') | Raise e => Raise e end,
       self', w').
Proof.
  intros Hv E. unfold getToken, mbind, M_mbind, M_bind, utc_now, get_attr; simpl.
  rewrite Hv, E. by destruct out.
Qed.

(** C8, as amended.  When the token is present and not expired, [getToken]
    returns the cached [access_token] and leaves the receiver and the world
    as they were, so no request is sent.  Otherwise it runs one refresh and
    ends where that refresh ends.  If it returns, it returns the token the
    refresh stored, the [data.token] of the one response.  It raises exactly
    when the refresh raises, with the exception of the refresh and the
    receiver as it was: after an answer with a 4xx or 5xx status and a JSON
    body the [RuntimeError], and [RuntimeError] after no other answer; after
    an answer with another status the unwrapped [JSONDecodeError],
    [KeyError] or [TypeError]. *)
Theorem getToken_cached_or_refreshed self w res self' w' :
  getToken py_str net self w = (res, self', w') →
  (isValid self (clock w) = true →
     res = Ok (access_token self) ∧ self' = self ∧ w' = w) ∧
  (isValid self (clock w) = false →
     update_access_token py_str net self w
     = (match res with Ok _ => Ok () | Raise e => Raise e end, self', w') ∧
     (sent w' = sent w ∨ ∃ rq, sent w' = sent w ++ [rq]) ∧
     (∀ tok, res = Ok tok →
        tok = access_token self' ∧
        ∃ rq d r j data,
          posted net self w rq d (Ok r) ∧ sent w' = sent w ++ [rq] ∧
          body r = Some j ∧ py_getitem j "data" = Ok data ∧
          py_getitem data "token" = Ok tok) ∧
     (∀ e, res = Raise e →
        self' = self ∧
        ∀ rq d r, posted net self w rq d (Ok r) →
          (is_RuntimeError e = true →
             400 ≤ status_code r < 600 ∧ is_Some (body r)) ∧
          (400 ≤ status_code r < 600 → ∀ shown, body r = Some shown →
             ∃ msg m, e = RuntimeError msg (HTTPError m (status_code r))) ∧
          (¬ (400 ≤ status_code r < 600) →
             e = JSONDecodeError ∨ e = KeyError "data" ∨ e = KeyError "token" ∨
             ∃ cls, e = TypeError cls))) ∧
  (raised res ↔
   isValid self (clock w) = false ∧
   raised (update_access_token py_str net self w).1.1).
Proof.
  intros G.
  destruct (update_access_token py_str net self w) as [[out s1] w1] eqn:E.
  pose proof E as R. apply refresh_runs in R.
  destruct (isValid self (clock w)) eqn:Hv.
  - rewrite getToken_valid in G by done. injection G as <- <- <-.
    split; [done|]. split; [done|]. split; [by intros [e ?]|by intros [? _]].
  - rewrite (getToken_invalid _ _ _ _ _ Hv E) in G. injection G as <- <- <-.
    split; [done|]. split.
    + intros _. split; [by destruct out as [[]|e]|].
      split; [by apply refresh_run_frame in R as [_ ?]|]. split.
      * intros tok Ht. destruct out as [[]|e]; [|done]. injection Ht as <-.
        split; [done|]. exact (refresh_run_ok_token _ _ _ _ _ _ R).
      * intros e He. destruct out as [[]|e']; [done|]. injection He as ->.
        split; [by inversion R|].
        intros rq d r Hp.
        by destruct (refresh_run_raise_by_status _ _ _ _ _ _ _ _ _ _ Hp R) as [_ ?].
    + simpl. destruct out as [[]|e]; split.
      * by intros [e ?].
      * by intros [_ [e ?]].
      * intros _. split; [done|by exists e].
      * intros _. by exists e.
Qed.

End TokenFacts.

(** ** One instance per configuration *)

Section SingletonFacts.

Variable py_str : pyval → string.
Variable net : world → request → N * outcome response.
Context {K : Type} `{Countable K}.
Variable fingerprint : gmap string pyval → K.

Lemma create_registers s p :
  instances (shared_create_for_stream fingerprint s p).2
    !! fingerprint (stream_config s)
  = Some (shared_create_for_stream fingerprint s p).1.
Proof.
  unfold shared_create_for_stream.
  destruct (instances p !! _) eqn:E; simpl; [done|]. by rewrite lookup_insert_eq.
Qed.

Lemma create_keeps_instance s p k l :
  instances p !! k = Some l →
  instances (shared_create_for_stream fingerprint s p).2 !! k = Some l.
Proof.
  unfold shared_create_for_stream. intros Hk.
  destruct (instances p !! fingerprint _) eqn:E; simpl; [done|].
  rewrite lookup_insert_ne; [done|]. intros Heq. congruence.
Qed.

Lemma call_keeps_instances {A} l (m : M A) (p q : process (K:=K)) out :
  call l m p = Some (out, q) →
  instances q = instances p ∧ length (heap q) = length (heap p).
Proof.
  unfold call. destruct (heap p !! l); [|done].
  destruct (m _ _) as [[o s'] w']. intros [= <- <-]. simpl.
  by rewrite length_insert.
Qed.

(** An instance, once kept for a configuration, stays the one kept for it. *)
Lemma evolves_keeps_instance p q k l :
  evolves fingerprint p q → instances p !! k = Some l → instances q !! k = Some l.
Proof.
  induction 1 as [p|p q s _ IH|A p q i m out q' _ IH Hc|p q w' _ IH]; intros Hk.
  - done.
  - by apply create_keeps_instance, IH.
  - apply call_keeps_instances in Hc as [-> _]. by apply IH.
  - simpl. by apply IH.
Qed.

(** Kept instances stay objects of the heap. *)
Lemma evolves_live p q :
  evolves fingerprint p q → instances_live p → instances_live q.
Proof.
  induction 1 as [p|p q s _ IH|A p q i m out q' _ IH Hc|p q w' _ IH]; intros Hl.
  - done.
  - specialize (IH Hl). unfold shared_create_for_stream.
    destruct (instances q !! fingerprint _) eqn:E; simpl; [done|].
    intros k l. simpl. rewrite lookup_insert. case_decide as Hd.
    + intros [= <-]. rewrite lookup_app_r by lia.
      by rewrite Nat.sub_diag.
    + intros Hk. destruct (IH k l Hk) as [o Ho].
      exists o. by apply lookup_app_l_Some.
  - specialize (IH Hl). intros k l Hk.
    apply call_keeps_instances in Hc as [Hi Hn]. rewrite Hi in Hk.
    apply lookup_lt_is_Some. rewrite Hn. apply lookup_lt_is_Some. eauto.
  - exact (IH Hl).
Qed.

Lemma start_live w : instances_live (K:=K) (start w).
Proof. intros k l. unfold start; simpl. by rewrite lookup_empty. Qed.

(** C9.  In a process that started with no authenticator, once a caller got
    the instance for a stream, every later request for the authenticator of
    a stream with the same configuration returns that same instance and
    builds nothing.  All callers so hold one object: while its token is
    valid, [getToken] through any of them returns the cached token and
    leaves the process, with the list of requests sent, as it was. *)
Theorem same_configuration_same_instance w0 p s1 s2 l p1 p2 :
  evolves fingerprint (start w0) p →
  stream_config s1 = stream_config s2 →
  shared_create_for_stream fingerprint s1 p = (l, p1) →
  evolves fingerprint p1 p2 →
  shared_create_for_stream fingerprint s2 p2 = (l, p2) ∧
  ∃ self,
    heap p2 !! l = Some self ∧
    (isValid self (clock (outside p2)) = true →
       call l (getToken py_str net) p2 = Some (Ok (access_token self), p2)).
Proof.
  intros Hp Hs Hc He.
  pose proof (create_registers s1 p) as Hr. rewrite Hc in Hr. simpl in Hr.
  pose proof (evolves_keeps_instance _ _ _ _ He Hr) as Hk.
  assert (Hl : instances_live p2).
  { apply (evolves_live p1); [done|].
    replace p1 with (shared_create_for_stream fingerprint s1 p).2 by by rewrite Hc.
    apply (evolves_live p); [by constructor; constructor|].
    by apply (evolves_live (start w0)), start_live. }
  split.
  - unfold shared_create_for_stream. by rewrite <- Hs, Hk.
  - destruct (Hl _ _ Hk) as [self Hself]. exists self. split; [done|].
    intros Hv. unfold call. rewrite Hself, getToken_valid by done.
    rewrite list_insert_id by done. by destruct p2.
Qed.

End SingletonFacts.

(** * Worked runs *)

Lemma sample_posted r :
  posted (answer 250 r) sample_auth world0 sample_request 250 (Ok r).
Proof. exists (PStr "id-1"), (PStr "s3cret"). by vm_compute. Qed.

Lemma hourly_posted r :
  posted (answer 250 r) sample_auth_hourly world0 sample_request 250 (Ok r).
Proof. exists (PStr "id-1"), (PStr "s3cret"). by vm_compute. Qed.

Lemma posted_sample r self w :
  config self = sample_config →
  auth_endpoint self = "https://api.personio.de/v1/auth" →
  posted (answer 250 r) self w sample_request 250 (Ok r).
Proof.
  intros Hc He. exists (PStr "id-1"), (PStr "s3cret"). rewrite Hc, He.
  by vm_compute.
Qed.

Lemma triple_eta {A B C} (x : A * B * C) : x = (x.1.1, x.1.2, x.2).
Proof. by destruct x as [[? ?] ?]. Qed.

Lemma run_of_eq r self :
  update_access_token str0 (answer 250 r) self world0
  = ((run_of r self).1.1, (run_of r self).1.2, (run_of r self).2).
Proof. unfold run_of. by destruct (update_access_token _ _ _ _) as [[? ?] ?]. Qed.

Lemma run_of_ok r self :
  (run_of r self).1.1 = Ok () →
  update_access_token str0 (answer 250 r) self world0
  = (Ok (), (run_of r self).1.2, (run_of r self).2).
Proof. intros <-. apply run_of_eq. Qed.

(** ** C1 *)

(** A 401 with a JSON body: the documented [RuntimeError], nothing stored. *)
Example unauthorized_run :
  run_of unauthorized sample_auth
  = (Raise (RuntimeError
              ("Failed OAuth login, response was '<dict>'. "
                 +:+ "401 Client Error: Unauthorized for url: "
                 +:+ "https://api.personio.de/v1/auth")
              (HTTPError
                 ("401 Client Error: Unauthorized for url: "
                    +:+ "https://api.personio.de/v1/auth") 401)),
     sample_auth, after_post world0 sample_request 250).
Proof. by vm_compute. Qed.

Lemma http_error_raises_and_keeps_state_witness :
  400 ≤ status_code unauthorized < 600 ∧
  raised (run_of unauthorized sample_auth).1.1 ∧
  (run_of unauthorized sample_auth).1.2 = sample_auth ∧
  ∀ shown, body unauthorized = Some shown →
    ∃ msg kind,
      msg = pretty (status_code unauthorized) +:+ kind +:+ reason unauthorized
              +:+ " for url: " +:+ url unauthorized ∧
      (run_of unauthorized sample_auth).1.1
      = Raise (RuntimeError
                 ("Failed OAuth login, response was '" +:+ str0 shown
                    +:+ "'. " +:+ msg)
                 (HTTPError msg (status_code unauthorized))).
Proof.
  split; [simpl; lia|].
  eapply (http_error_raises_and_keeps_state str0 (answer 250 unauthorized)
            sample_auth world0 sample_request 250 unauthorized);
    [apply sample_posted | simpl; lia | apply run_of_eq].
Defined.

(** The same status class with a body that is not JSON: rendering the body
    for the message raises first, and the [RuntimeError] never forms. *)
Example bad_gateway_run :
  run_of bad_gateway sample_auth
  = (Raise JSONDecodeError, sample_auth, after_post world0 sample_request 250).
Proof. by vm_compute. Qed.

(** A status outside 2xx that [raise_for_status] lets pass: the refresh goes
    through and stores the token. *)
Lemma status_300_refreshes :
  ¬ (200 ≤ status_code multiple_choices < 300) ∧
  run_of multiple_choices sample_auth
  = (Ok (), refreshed (PStr "T") (PInt 3600) 1000000 sample_auth,
     after_log (after_post world0 sample_request 250) [(INFO, login_ok_msg)]) ∧
  ¬ non_2xx_fails_with_RuntimeError str0 (answer 250 multiple_choices).
Proof.
  split; [simpl; lia|]. split; [by vm_compute|].
  intros C.
  specialize (C sample_auth world0 sample_request 250%N multiple_choices
                (sample_posted _)).
  unfold fails_with_RuntimeError_unchanged in C.
  assert (E : update_access_token str0 (answer 250 multiple_choices) sample_auth world0
              = (Ok (), refreshed (PStr "T") (PInt 3600) 1000000 sample_auth,
                 after_log (after_post world0 sample_request 250)
                   [(INFO, login_ok_msg)])) by by vm_compute.
  rewrite E in C. destruct C as [(msg & cause & Hc) _]; [simpl; lia|discriminate].
Qed.

(** ** C2 *)

(** The body [{"data": {}}] with status 200: a bare [KeyError]. *)
Lemma missing_token_raises_KeyError :
  run_of no_token sample_auth
  = (Raise (KeyError "token"), sample_auth,
     after_log (after_post world0 sample_request 250) [(INFO, login_ok_msg)]) ∧
  ¬ malformed_2xx_fails_with_RuntimeError str0 (answer 250 no_token).
Proof.
  assert (E : update_access_token str0 (answer 250 no_token) sample_auth world0
              = (Raise (KeyError "token"), sample_auth,
                 after_log (after_post world0 sample_request 250)
                   [(INFO, login_ok_msg)])) by by vm_compute.
  split; [exact E|]. intros C.
  specialize (C sample_auth world0 sample_request 250%N no_token (sample_posted _)).
  rewrite E in C. destruct C as (msg & cause & Hc).
  - simpl; lia.
  - right. by exists (PDict [("data", PDict [])]), (KeyError "token").
  - discriminate.
Qed.

Lemma malformed_success_raises_unwrapped_witness :
  200 ≤ status_code no_token < 300 ∧
  (body no_token = None →
     (run_of no_token sample_auth).1.1 = Raise JSONDecodeError ∧
     (run_of no_token sample_auth).1.2 = sample_auth) ∧
  (∀ j e, body no_token = Some j → nested_token j = Raise e →
     (run_of no_token sample_auth).1.1 = Raise e ∧
     (run_of no_token sample_auth).1.2 = sample_auth ∧
     is_RuntimeError e = false ∧
     (e = KeyError "data" ∨ e = KeyError "token" ∨ ∃ cls, e = TypeError cls)).
Proof.
  split; [simpl; lia|].
  eapply (malformed_success_raises_unwrapped str0 (answer 250 no_token)
            sample_auth world0 sample_request 250 no_token);
    [apply sample_posted | simpl; lia | apply run_of_eq].
Defined.

(** A 200 whose body is not JSON. *)
Example not_json_run :
  run_of (respond 200 "OK" None) sample_auth
  = (Raise JSONDecodeError, sample_auth,
     after_log (after_post world0 sample_request 250) [(INFO, login_ok_msg)]).
Proof. by vm_compute. Qed.

(** ** C3, C4, C5, C6 *)

Example ok_run :
  run_of ok_response sample_auth
  = (Ok (), refreshed (PStr "T") (PInt 3600) 1000000 sample_auth,
     World 1000250 [sample_request] [(INFO, login_ok_msg)]).
Proof. by vm_compute. Qed.

Lemma refresh_sets_all_or_nothing_witness :
  settings (run_of ok_response sample_auth).1.2 = settings sample_auth ∧
  (sent (run_of ok_response sample_auth).2 = sent world0 ∨
   ∃ rq, sent (run_of ok_response sample_auth).2 = sent world0 ++ [rq]) ∧
  match (run_of ok_response sample_auth).1.1 with
  | Ok _ =>
      (∃ tok exp,
         (run_of ok_response sample_auth).1.2
         = refreshed tok exp (clock world0) sample_auth) ∧
      (∃ rq, sent (run_of ok_response sample_auth).2 = sent world0 ++ [rq]) ∧
      ∀ other, settings other = settings sample_auth →
        update_access_token str0 (answer 250 ok_response) other world0
        = (Ok (), (run_of ok_response sample_auth).1.2,
           (run_of ok_response sample_auth).2)
  | Raise _ => (run_of ok_response sample_auth).1.2 = sample_auth
  end ∧
  ∀ self2 w2,
    update_access_token str0 (answer 250 ok_response)
      (run_of ok_response sample_auth).1.2 (run_of ok_response sample_auth).2
    = (Ok (), self2, w2) →
    update_access_token str0 (answer 250 ok_response) sample_auth
      (run_of ok_response sample_auth).2
    = (Ok (), self2, w2).
Proof.
  apply (refresh_sets_all_or_nothing str0 (answer 250 ok_response)
           sample_auth world0), run_of_eq.
Defined.

(** Two refreshes in a row, the second answered with another token and no
    [expires_in]: nothing of the first is left. *)
Example second_refresh_replaces_all :
  update_access_token str0
    (answer 250 (respond 200 "OK" (Some (PDict [("data", PDict [("token", PStr "U")])]))))
    (run_of ok_response sample_auth).1.2 (run_of ok_response sample_auth).2
  = (Ok (), refreshed (PStr "U") PNone 1000250 sample_auth,
     World 1000500 [sample_request; sample_request]
       [(INFO, login_ok_msg); (INFO, login_ok_msg); (DEBUG, never_expires_msg)]).
Proof. by vm_compute. Qed.

Lemma last_refreshed_is_request_time_witness :
  last_refreshed (run_of ok_response sample_auth).1.2 = Some (clock world0) ∧
  ∃ rq d r,
    posted (answer 250 ok_response) sample_auth world0 rq d (Ok r) ∧
    sent (run_of ok_response sample_auth).2 = sent world0 ++ [rq] ∧
    clock (run_of ok_response sample_auth).2 = clock world0 + Z.of_N d.
Proof.
  apply (last_refreshed_is_request_time str0 (answer 250 ok_response)
           sample_auth world0), run_of_ok.
  by vm_compute.
Defined.

(** The response came in 250 microseconds after the reading that was
    stored. *)
Example last_refreshed_is_not_arrival_time :
  last_refreshed (run_of ok_response sample_auth).1.2 = Some 1000000 ∧
  clock (run_of ok_response sample_auth).2 = 1000250.
Proof. by vm_compute. Qed.

(** From a stored expiry of 60: the key at the top level beats a default
    of two hours; without the key the default is stored; without key and
    default [None] is stored and logged. *)
Lemma expires_in_from_top_level_or_default_witness :
  ((run_of ok_response (stale sample_auth_two_hours)).1.1 = Ok () ∧
   expires_in (run_of ok_response (stale sample_auth_two_hours)).1.2 = PInt 3600) ∧
  ((run_of personio_response (stale sample_auth_two_hours)).1.1 = Ok () ∧
   expires_in (run_of personio_response (stale sample_auth_two_hours)).1.2
   = PInt 7200) ∧
  ((run_of personio_response (stale sample_auth)).1.1 = Ok () ∧
   expires_in (run_of personio_response (stale sample_auth)).1.2 = PNone ∧
   logged (run_of personio_response (stale sample_auth)).2
   = logged world0 ++ [(INFO, login_ok_msg); (DEBUG, never_expires_msg)]).
Proof.
  split; [|split].
  - destruct (expires_in_from_top_level_or_default str0 (answer 250 ok_response)
                (stale sample_auth_two_hours) world0 sample_request 250
                ok_response _ (PStr "T") _ _ _
                ltac:(by apply posted_sample) ltac:(simpl; lia)
                eq_refl eq_refl (run_of_eq _ _)) as (H1 & H2 & _).
    split; [exact H1 | exact (H2 _ eq_refl)].
  - destruct (expires_in_from_top_level_or_default str0
                (answer 250 personio_response)
                (stale sample_auth_two_hours) world0 sample_request 250
                personio_response _ (PStr "T") _ _ _
                ltac:(by apply posted_sample) ltac:(simpl; lia)
                eq_refl eq_refl (run_of_eq _ _)) as (H1 & _ & H3 & _).
    split; [exact H1 | exact (H3 eq_refl)].
  - destruct (expires_in_from_top_level_or_default str0
                (answer 250 personio_response)
                (stale sample_auth) world0 sample_request 250
                personio_response _ (PStr "T") _ _ _
                ltac:(by apply posted_sample) ltac:(simpl; lia)
                eq_refl eq_refl (run_of_eq _ _)) as (H1 & _ & _ & H4).
    split; [exact H1 | exact (H4 eq_refl eq_refl)].
Defined.

(** The three cases of C5 on runs: the key at the top level, the key missing
    with a default, the key missing without one.  An [expires_in] nested in
    [data], where Personio puts it, is not looked at. *)
Example expires_in_runs :
  expires_in (run_of ok_response sample_auth_hourly).1.2 = PInt 3600 ∧
  expires_in (run_of (respond 200 "OK" (Some personio_body)) sample_auth_hourly).1.2
  = PInt 3600 ∧
  expires_in (run_of (respond 200 "OK" (Some personio_body)) sample_auth).1.2
  = PNone ∧
  logged (run_of (respond 200 "OK" (Some personio_body)) sample_auth).2
  = [(INFO, login_ok_msg); (DEBUG, never_expires_msg)].
Proof. by vm_compute. Qed.

Lemma access_token_is_data_token_witness :
  ∃ rq d r j data,
    posted (answer 250 ok_response) sample_auth world0 rq d (Ok r) ∧
    body r = Some j ∧
    py_getitem j "data" = Ok data ∧
    py_getitem data "token"
    = Ok (access_token (run_of ok_response sample_auth).1.2).
Proof.
  eapply (access_token_is_data_token str0 (answer 250 ok_response)
            sample_auth world0), run_of_ok.
  by vm_compute.
Defined.

(** A standard OAuth body, with the token at the top level, does not do. *)
Example top_level_access_token_is_not_read :
  (run_of (respond 200 "OK" (Some (PDict [("access_token", PStr "A")]))) sample_auth).1
  = (Raise (KeyError "data"), sample_auth) ∧
  access_token
    (run_of (respond 200 "OK"
               (Some (PDict [("access_token", PStr "A");
                             ("data", PDict [("token", PStr "T")])])))
            sample_auth).1.2
  = PStr "T".
Proof. by vm_compute. Qed.

(** ** C10 *)

(** From a stored expiry of 60 and with a default of one hour: a [null]
    stores [None], a missing key stores the hour. *)
Lemma null_expires_in_beats_default_witness :
  ((run_of null_expiry (stale sample_auth_hourly)).1.1 = Ok () ∧
   expires_in (run_of null_expiry (stale sample_auth_hourly)).1.2 = PNone ∧
   logged (run_of null_expiry (stale sample_auth_hourly)).2
   = logged world0 ++ [(INFO, login_ok_msg); (DEBUG, never_expires_msg)]) ∧
  ((run_of personio_response (stale sample_auth_hourly)).1.1 = Ok () ∧
   expires_in (run_of personio_response (stale sample_auth_hourly)).1.2
   = PInt 3600).
Proof.
  split.
  - destruct (null_expires_in_beats_default str0 (answer 250 null_expiry)
                (stale sample_auth_hourly) world0 sample_request 250
                null_expiry _ (PStr "T") _ _ _
                ltac:(by apply posted_sample) ltac:(simpl; lia)
                eq_refl eq_refl (run_of_eq _ _)) as (H1 & H2 & _).
    split; [exact H1 | exact (H2 eq_refl)].
  - destruct (null_expires_in_beats_default str0 (answer 250 personio_response)
                (stale sample_auth_hourly) world0 sample_request 250
                personio_response _ (PStr "T") _ _ _
                ltac:(by apply posted_sample) ltac:(simpl; lia)
                eq_refl eq_refl (run_of_eq _ _)) as (H1 & _ & H3).
    split; [exact H1 | exact (H3 eq_refl)].
Defined.

Example null_expiry_run :
  expires_in (run_of null_expiry sample_auth_hourly).1.2 = PNone ∧
  expires_in
    (run_of (respond 200 "OK" (Some (PDict [("data", PDict [("token", PStr "T")])])))
       sample_auth_hourly).1.2
  = PInt 3600.
Proof. by vm_compute. Qed.

(** ** C7 *)

(** The instance after a first refresh posts the same request again. *)
Lemma refresh_posts_once_to_fixed_endpoint_witness :
  sent (run_of unauthorized (run_of ok_response sample_auth).1.2).2
  = sent world0 ++
    [Request "POST" "https://api.personio.de/v1/auth"
       [("client_id", PStr "id-1"); ("client_secret", PStr "s3cret")] 60].
Proof.
  eapply (refresh_posts_once_to_fixed_endpoint str0 (answer 250 unauthorized)
            (Stream sample_config) (PStr "id-1") (PStr "s3cret")
            (run_of ok_response sample_auth).1.2 world0);
    [by vm_compute | by vm_compute | done | apply run_of_eq].
Defined.

(** ** C8 *)

(** Four reads: of a token fetched five seconds ago, nothing is sent; from
    the empty state the token of the response is fetched; a 200 without a
    token raises the bare [KeyError]; with an expired token a 401 raises the
    [RuntimeError] and the old token stays. *)
Lemma getToken_cached_or_refreshed_witness :
  ((getToken str0 (answer 250 ok_response) life_first.1.2 life_waited).1.1
   = Ok (PStr "T") ∧
   (getToken str0 (answer 250 ok_response) life_first.1.2 life_waited).1.2
   = life_first.1.2 ∧
   (getToken str0 (answer 250 ok_response) life_first.1.2 life_waited).2
   = life_waited) ∧
  (PStr "T"
   = access_token (getToken str0 (answer 250 ok_response) sample_auth world0).1.2 ∧
   ∃ rq d r j data,
     posted (answer 250 ok_response) sample_auth world0 rq d (Ok r) ∧
     sent (getToken str0 (answer 250 ok_response) sample_auth world0).2
     = sent world0 ++ [rq] ∧
     body r = Some j ∧ py_getitem j "data" = Ok data ∧
     py_getitem data "token" = Ok (PStr "T")) ∧
  ((getToken str0 (answer 250 no_token) sample_auth world0).1.2 = sample_auth ∧
   is_RuntimeError (KeyError "token") = false ∧
   (KeyError "token" = JSONDecodeError ∨ KeyError "token" = KeyError "data" ∨
    KeyError "token" = KeyError "token" ∨ ∃ cls, KeyError "token" = TypeError cls)) ∧
  ((getToken str0 (answer 250 unauthorized) (stale sample_auth) world_later).1.2
   = stale sample_auth ∧
   ∃ msg m,
     (getToken str0 (answer 250 unauthorized) (stale sample_auth) world_later).1.1
     = Raise (RuntimeError msg (HTTPError m 401))).
Proof.
  split; [|split; [|split]].
  - destruct (getToken_cached_or_refreshed str0 (answer 250 ok_response)
                life_first.1.2 life_waited _ _ _ (triple_eta _)) as (Hc & _ & _).
    exact (Hc ltac:(by vm_compute)).
  - destruct (getToken_cached_or_refreshed str0 (answer 250 ok_response)
                sample_auth world0 _ _ _ (triple_eta _)) as (_ & Hr & _).
    destruct (Hr ltac:(by vm_compute)) as (_ & _ & Hok & _).
    exact (Hok (PStr "T") ltac:(by vm_compute)).
  - destruct (getToken_cached_or_refreshed str0 (answer 250 no_token)
                sample_auth world0 _ _ _ (triple_eta _)) as (_ & Hr & _).
    destruct (Hr ltac:(by vm_compute)) as (_ & _ & _ & Hraise).
    destruct (Hraise (KeyError "token") ltac:(by vm_compute)) as (Hs & Hk).
    destruct (Hk _ _ _ (sample_posted no_token)) as (_ & _ & Hraw).
    split; [exact Hs|]. split; [done|]. exact (Hraw ltac:(simpl; lia)).
  - assert (E : (getToken str0 (answer 250 unauthorized) (stale sample_auth) world_later).1.1
      = Raise (RuntimeError
                 ("Failed OAuth login, response was '<dict>'. "
                    +:+ "401 Client Error: Unauthorized for url: "
                    +:+ "https://api.personio.de/v1/auth")
                 (HTTPError
                    ("401 Client Error: Unauthorized for url: "
                       +:+ "https://api.personio.de/v1/auth") 401)))
      by by vm_compute.
    destruct (getToken_cached_or_refreshed str0 (answer 250 unauthorized)
                (stale sample_auth) world_later _ _ _ (triple_eta _)) as (_ & Hr & _).
    destruct (Hr ltac:(by vm_compute)) as (_ & _ & _ & Hraise).
    destruct (Hraise _ E) as (Hs & Hk).
    destruct (Hk _ _ _ (posted_sample unauthorized (stale sample_auth) world_later eq_refl eq_refl))
      as (_ & Hrt & _).
    split; [exact Hs|].
    destruct (Hrt ltac:(simpl; lia) _ eq_refl) as (msg & m & Hm).
    exists msg, m. rewrite E. exact (f_equal Raise Hm).
Defined.

(** The first read fetches the token with one request; a read 3599 seconds
    after the request finds it valid and sends nothing; a read at 3600
    seconds sends the second request. *)
Example getToken_runs :
  let net := answer 250 ok_response in
  let first := getToken str0 net sample_auth world0 in
  let later (t : Z) := World t (sent first.2) (logged first.2) in
  first.1.1 = Ok (PStr "T") ∧ sent first.2 = [sample_request] ∧
  getToken str0 net first.1.2 (later 3600000000)
  = (Ok (PStr "T"), first.1.2, later 3600000000) ∧
  sent (getToken str0 net first.1.2 (later 3601000000)).2
  = [sample_request; sample_request].
Proof. by vm_compute. Qed.

(** With the body [{"data": {}}] the refresh raises [KeyError], and so does
    [getToken]: not the one documented error kind. *)
Lemma getToken_raises_KeyError :
  (getToken str0 (answer 250 no_token) sample_auth world0).1.1
  = Raise (KeyError "token") ∧
  ¬ getToken_fails_with_RuntimeError_iff_refresh_fails str0 (answer 250 no_token).
Proof.
  split; [by vm_compute|]. intros C.
  destruct (C sample_auth world0) as [_ C2]; [by vm_compute|].
  destruct C2 as (msg & cause & Hc).
  - exists (KeyError "token"). by vm_compute.
  - vm_compute in Hc. discriminate.
Qed.

(** ** C9 *)

Example sample_process_read_eq :
  call 0 (getToken str0 (answer 250 ok_response)) sample_process_built
  = Some (Ok (PStr "T"), sample_process_read).
Proof. by vm_compute. Qed.

(** One caller built the authenticator and read the token; a second caller
    asking for the same configuration gets instance 0 again, and its read
    is served from the token the first one fetched. *)
Lemma same_configuration_same_instance_witness :
  shared_create_for_stream one_key (Stream sample_config) sample_process_read
  = (0%nat, sample_process_read) ∧
  ∃ self,
    heap sample_process_read !! 0%nat = Some self ∧
    (isValid self (clock (outside sample_process_read)) = true →
       call 0 (getToken str0 (answer 250 ok_response)) sample_process_read
       = Some (Ok (access_token self), sample_process_read)).
Proof.
  apply (same_configuration_same_instance str0 (answer 250 ok_response) one_key
           world0 (start world0) (Stream sample_config) (Stream sample_config)
           0%nat sample_process_built sample_process_read).
  - apply ev_here.
  - done.
  - by vm_compute.
  - eapply ev_call; [apply ev_here | apply sample_process_read_eq].
Defined.

Example second_caller_sends_nothing :
  call 0 (getToken str0 (answer 250 ok_response)) sample_process_read
  = Some (Ok (PStr "T"), sample_process_read) ∧
  sent (outside sample_process_read) = [sample_request].
Proof. by vm_compute. Qed.

(** ** Unwrapped failures *)

Lemma post_exception_passes_through_witness :
  (update_access_token str0 timing_out sample_auth world0).1.1
  = Raise (RequestException "ReadTimeout") ∧
  (update_access_token str0 timing_out sample_auth world0).1.2 = sample_auth ∧
  sent (update_access_token str0 timing_out sample_auth world0).2
  = sent world0 ++ [sample_request].
Proof.
  eapply (post_exception_passes_through str0 timing_out sample_auth world0
            sample_request 60000000).
  - exists (PStr "id-1"), (PStr "s3cret"). by vm_compute.
  - by destruct (update_access_token _ _ _ _) as [[? ?] ?].
Defined.

Lemma missing_credential_raises_before_post_witness :
  ((run_of ok_response (create_for_stream (Stream ∅))).1.1
   = Raise (KeyError "client_id") ∧
   (run_of ok_response (create_for_stream (Stream ∅))).1.2
   = create_for_stream (Stream ∅) ∧
   (run_of ok_response (create_for_stream (Stream ∅))).2 = world0) ∧
  ((run_of ok_response (create_for_stream (Stream only_client_id))).1.1
   = Raise (KeyError "client_secret") ∧
   (run_of ok_response (create_for_stream (Stream only_client_id))).1.2
   = create_for_stream (Stream only_client_id) ∧
   (run_of ok_response (create_for_stream (Stream only_client_id))).2 = world0).
Proof.
  split.
  - exact (missing_credential_raises_before_post str0 (answer 250 ok_response)
             (create_for_stream (Stream ∅)) world0 _ _ _
             (or_introl eq_refl) (run_of_eq _ _)).
  - exact (missing_credential_raises_before_post str0 (answer 250 ok_response)
             (create_for_stream (Stream only_client_id)) world0 _ _ _
             (or_intror eq_refl) (run_of_eq _ _)).
Defined.

Lemma http_error_with_undecodable_body_witness :
  (run_of bad_gateway sample_auth).1.1 = Raise JSONDecodeError ∧
  (run_of bad_gateway sample_auth).1.2 = sample_auth.
Proof.
  eapply (http_error_with_undecodable_body str0 (answer 250 bad_gateway)
            sample_auth world0 sample_request 250 bad_gateway);
    [apply sample_posted | simpl; lia | done | apply run_of_eq].
Defined.

(** ** Success, exceptions and log records *)

(** A [null] at [data.token] is a success, and the token stored is
    [None]. *)
Lemma refresh_succeeds_iff_witness :
  ((run_of null_token sample_auth).1.1 = Ok () ↔
   ∃ rq d r j tok,
     posted (answer 250 null_token) sample_auth world0 rq d (Ok r) ∧
     ¬ (400 ≤ status_code r < 600) ∧
     body r = Some j ∧ nested_token j = Ok tok) ∧
  (∀ rq d r j tok,
     posted (answer 250 null_token) sample_auth world0 rq d (Ok r) →
     ¬ (400 ≤ status_code r < 600) →
     body r = Some j → nested_token j = Ok tok →
     (run_of null_token sample_auth).1.1 = Ok () ∧
     access_token (run_of null_token sample_auth).1.2 = tok).
Proof.
  eapply (refresh_succeeds_iff str0 (answer 250 null_token) sample_auth world0),
    run_of_eq.
Defined.

Example null_token_run :
  (run_of null_token sample_auth).1
  = (Ok (), refreshed PNone PNone 1000000 sample_auth).
Proof. by vm_compute. Qed.

Lemma answered_refresh_raises_one_of_witness :
  (run_of no_token sample_auth).1.2 = sample_auth ∧
  ((∃ msg m, KeyError "token" = RuntimeError msg (HTTPError m (status_code no_token)) ∧
             400 ≤ status_code no_token < 600) ∨
   KeyError "token" = JSONDecodeError ∨ KeyError "token" = KeyError "data" ∨
   KeyError "token" = KeyError "token" ∨
   ∃ cls, KeyError "token" = TypeError cls) ∧
  ∀ cls attr, KeyError "token" ≠ AttributeError cls attr.
Proof.
  eapply (answered_refresh_raises_one_of str0 (answer 250 no_token) sample_auth
            world0 sample_request 250 no_token);
    [apply sample_posted|].
  rewrite run_of_eq; f_equal; by vm_compute.
Defined.

(** The call raises [KeyError], and the log says the attempt was
    successful. *)
Lemma refresh_log_records_witness :
  (run_of no_token sample_auth).1.1 = Raise (KeyError "token") ∧
  logged (run_of no_token sample_auth).2
  = logged world0 ++ [(INFO, login_ok_msg)].
Proof.
  assert (E : (run_of no_token sample_auth).1.1 = Raise (KeyError "token"))
    by by vm_compute.
  split; [exact E|].
  exact (refresh_log_records str0 (answer 250 no_token) sample_auth world0
           sample_request 250 (Ok no_token) (Raise (KeyError "token"))
           (run_of no_token sample_auth).1.2 (run_of no_token sample_auth).2
           (sample_posted _)
           (eq_trans (run_of_eq _ _)
              (f_equal (λ o, (o, (run_of no_token sample_auth).1.2,
                              (run_of no_token sample_auth).2)) E))).
Defined.

(** ** What a refresh reads *)

Lemma refresh_reads_only_its_inputs_witness :
  ∃ b',
    update_access_token str0 (answer 250 ok_response) sample_auth_busy world0
    = ((run_of ok_response sample_auth).1.1, b', (run_of ok_response sample_auth).2) ∧
    match (run_of ok_response sample_auth).1.1 with
    | Ok _ => token_state b' = token_state (run_of ok_response sample_auth).1.2
    | Raise _ =>
        (run_of ok_response sample_auth).1.2 = sample_auth ∧ b' = sample_auth_busy
    end.
Proof.
  apply (refresh_reads_only_its_inputs str0 (answer 250 ok_response)
           sample_auth sample_auth_busy world0);
    [by vm_compute | apply run_of_eq].
Defined.

(** ** Two refreshes *)

Lemma sample_lifetime :
  lifetime str0 (answer 250 ok_response) sample_auth world0 2
    life_second.1.2 life_second.2.
Proof.
  apply (life_refresh str0 (answer 250 ok_response) sample_auth world0 1
           life_first.1.2 life_waited life_second.1.1).
  - apply (life_wait str0 (answer 250 ok_response) sample_auth world0 1
             life_first.1.2 life_first.2 5000000).
    apply (life_refresh str0 (answer 250 ok_response) sample_auth world0 0
             sample_auth world0 life_first.1.1); [apply life_start|].
    apply run_of_eq.
  - change (life_second = (life_second.1.1, life_second.1.2, life_second.2)).
    by destruct life_second as [[? ?] ?].
Qed.

Lemma lifetime_keeps_settings_and_counts_requests_witness :
  settings life_second.1.2 = settings sample_auth ∧
  sent life_second.2 = sent world0 ++ replicate 2 sample_request.
Proof.
  destruct (lifetime_keeps_settings_and_counts_requests str0
              (answer 250 ok_response) sample_auth world0 2 _ _ sample_lifetime)
    as [Hs Hn].
  split; [exact Hs|].
  exact (Hn (PStr "id-1") (PStr "s3cret") eq_refl eq_refl ltac:(done)).
Defined.

(** An instance without an endpoint: every call raises [ValueError] and
    nothing is sent. *)
Example no_endpoint_run :
  run_of ok_response (init (Stream sample_config) "" "" PNone)
  = (Raise (ValueError endpoint_not_set_msg),
     init (Stream sample_config) "" "" PNone, world0).
Proof. by vm_compute. Qed.

Lemma lifetime_keeps_token_state_sound_witness :
  token_state_sound life_second.1.2 life_second.2 ∧
  clock world0 ≤ clock life_second.2 ∧
  ∀ t, last_refreshed sample_auth = Some t →
       ∃ t', last_refreshed life_second.1.2 = Some t' ∧ t ≤ t'.
Proof.
  apply (lifetime_keeps_token_state_sound str0 (answer 250 ok_response)
           sample_auth world0 2);
    [apply create_for_stream_sound | apply sample_lifetime].
Defined.

Example two_refreshes :
  sent life_second.2 = [sample_request; sample_request] ∧
  last_refreshed life_first.1.2 = Some 1000000 ∧
  last_refreshed life_second.1.2 = Some 6000250 ∧
  clock life_second.2 = 6000500.
Proof. by vm_compute. Qed.

(** ** The built instance and Personio's response *)

(** With [expires_in] inside [data], where Personio puts it, the built
    instance ends with no expiry. *)
Lemma created_instance_has_no_default_witness :
  ∃ rq d r items,
    posted (answer 250 (respond 200 "OK" (Some personio_body))) sample_auth
      world0 rq d (Ok r) ∧
    body r = Some (PDict items) ∧
    expires_in (run_of (respond 200 "OK" (Some personio_body)) sample_auth).1.2
    = default PNone (dict_lookup "expires_in" items) ∧
    (dict_lookup "expires_in" items = None →
       logged (run_of (respond 200 "OK" (Some personio_body)) sample_auth).2
       = logged world0 ++ [(INFO, login_ok_msg); (DEBUG, never_expires_msg)]).
Proof.
  eapply (created_instance_has_no_default str0
            (answer 250 (respond 200 "OK" (Some personio_body)))
            (Stream sample_config) sample_auth world0);
    [done | apply run_of_ok; by vm_compute].
Defined.
